(* ===== verification/_CoqProject ===== *)
-Q . S2P
Prelude.v
JsNum.v
JsString.v
Host.v
Docker.v
Quota.v
Procs.v
Cpu.v
Readers.v
Snapshot.v
