(* ===== verification/Prelude.v ===== *)
(** * A verification development of [src/lib/orders/system.js] (agentx)

    The program is one Node.js module of the agentx monitoring agent.  Its
    exported [run] collects a snapshot of the host: uptime, memory, load
    averages, the logical CPU count and the CPU busy fraction.  It hands the
    snapshot to a callback.  The CPU busy fraction is the only stateful part:
    it is computed from cumulative kernel counters against module-level
    variables that hold the previous sample.

    ** Parts of the program and how they interact

    - Environment detector ([isInDocker], lines 52-67).  It reads
      [/proc/self/cgroup] and tells whether the process runs in a docker
      container.  Modelled in [Docker.v].
    - Container CPU-quota resolver ([_getDockerCPUs], lines 73-100).  It
      reads the cgroup v1 quota and period files.  It falls back to
      [os.cpus().length].  Modelled in [Quota.v].
    - Per-process CPU aggregator ([_isPID], [_getProcessCPU], [getAllCPU],
      lines 102-151).  It sums user, system and children ticks over the
      entries of [/proc].  Modelled in [Procs.v].
    - CPU utilisation estimator ([calculateLinuxCPU], [calculateCPU],
      [calculateDockerCPU], [getSystemCPU], and the module-level variables
      [lastTotal], [lastIdle], [last_used], [last_sys], lines 7-8, 21-49 and
      153-203).  It is the stateful core.  Modelled in [Cpu.v].
    - Memory and load readers ([getLoadAvg], [getTotalMemory],
      [getMemoryUsage], lines 206-242).  Modelled in [Readers.v].
    - Snapshot assembler ([status], [exports.run], lines 244-264).
      Modelled in [Snapshot.v].

    [run] calls [status].  [status] calls the readers, then [getSystemCPU].
    [getSystemCPU] calls [isInDocker] and dispatches to one of three
    estimators.  The docker estimator calls [getAllCPU] and [_getDockerCPUs].

    ** Files of the development, in dependency order

    - [Prelude.v] (this file).  The JS completion type [res] (a normal value
      or a thrown exception), the effect monad [M] of the module, its
      notations in [js_scope], the [agentx] and [js_run] hint databases and the shared
      tactics.
    - [JsNum.v].  JS Numbers as [num]: a rational, [NaN], or an infinity.
      The arithmetic follows ECMAScript on the special values.
    - [JsString.v].  The string builtins the code calls: [trim], [split],
      [indexOf], [parseInt], and decimal rendering of counters.
    - [Host.v].  The host: the [os] facts and a file system of files and
      directories ([gmap]), with [readFileSync], [existsSync], [readdirSync].
    - [Docker.v], [Quota.v], [Procs.v], [Cpu.v], [Readers.v], [Snapshot.v]:
      one file per part, as listed above.

    ** Modelling choices

    - Effects.  A JS exception does not roll back module-level variables.
      So a stateful operation has type [M S A = S -> res A * S]: the state
      after a throw is kept.  This is not [stateT S (sum exn)], which would
      drop it.  The host (files, clock, [os]) is read-only during one call
      and is passed as a [world] argument.
    - Numbers.  A JS Number is modelled as [num].  A finite value is an
      exact rational kept in [Qred] normal form, so equality is Leibniz.
      Rounding of IEEE doubles is not modelled.  The counters are integers
      below 2^53, where double addition and subtraction are exact, so only
      the final divisions would round.  Signed zero is not modelled: a zero
      divisor is +0.  Every divisor of the code is a difference of integers
      or a quotient quota/period, which is +0 when it is 0, except for a
      quota file that reads "-0".
    - Strings.  Stdlib [string] of 8-bit [ascii].  Whitespace is the
      ECMAScript WhiteSpace and LineTerminator code points below 256.
    - The callback of [run] is modelled by the value passed to it.

    ** What the theorems show

    - [Cpu.v].  Outside docker, the calls of [getSystemCPU] after module
      load refine an abstract delta estimator ([delta_spec]).  The theorems
      are proved once, in the section [DeltaTheory], against the contract
      [step_law] of a host path.  The Linux and generic paths discharge it.
      Consequences: the value of a two-sample interval; the spec's fully
      idle (0) and fully busy (1) intervals; the result lies in [0, 1] for
      growing counters; the unguarded division on a stalled total gives
      [NaN] or an infinity.  The code's total counts steal once, the
      comment of system.js lines 14-16 counts it twice: the fraction
      agrees with the comment's exactly when idle or steal did not move.
      In docker: the output formula, that an exception of [_getDockerCPUs]
      escapes after the state is written, and that the first call
      measures from module load.  [calculateDockerCPU], which nothing
      calls, is modelled but carries no property: it is a copy of the
      docker branch of [getSystemCPU].
    - [Quota.v]: the share quota/period, each fallback branch of
      [_getDockerCPUs], and [NaN] for an unparsable quota.
    - [Procs.v]: [getAllCPU] sums the four tick fields of every numeric
      [/proc] entry, skipping vanished ones.  A short stat line makes the
      sum [NaN].  A command name with a space shifts the fields.
    - [Docker.v]: [isInDocker] on well-formed and on malformed cgroup
      files.
    - [Readers.v]: [getLoadAvg] on the kernel's [/proc/loadavg].  It misreads
      a load of 10 or more, and falls back to [os.loadavg()] without a
      match.  [getMemoryUsage] and [getTotalMemory] read back a
      [/proc/meminfo] rendered from its entries.
    - [Snapshot.v]: [run] on a Linux host, on a generic host (where it
      never throws), on a Linux host without [/proc/meminfo] (where it
      throws before calling back), and the spec's end-to-end property: two
      calls give a finite [cpu] on the second, for every branch.

    Each property with hypotheses has a witness.  The witness is a concrete
    host: files built with [set_file] and [set_dir], and counters that
    [vm_compute] evaluates.

    ** Bounds and fuel

    Every recursion is structural, on strings, lists or [nat], so no
    definition takes fuel.  The loops of the code ([for] and [forEach])
    are [fold_left] over the list the code iterates.  Counters are
    [nat] values.  Their rendering [show_nat] and [parseInt] round-trip
    exactly.  The load-average theorems take the kernel's format:
    an integer part below 10 (or below 100 for the misreading), a point,
    and two digits.  The memory theorems take lines [Label: value kB].

    ** Not modelled

    - IEEE rounding of the final divisions, signed zero, and overflow to
      [Infinity] beyond [Number.MAX_VALUE].  The inputs are kernel counters
      far below these bounds.
    - Characters above 255 in file contents.
    - cgroup v2 files, and the scheduling and transport of the agent that
      calls [run].  The spec puts the agent out of scope.
    - Concurrency.  The module runs on one JS thread.  Successive calls
      are an explicit sequence of steps ([de_run]) threading the state.
*)

From Stdlib Require Import String List ZArith.
Import ListNotations.

(** ** JS exceptions and completions *)

(** The exceptions the module can raise: Node's file errors and a
    [TypeError] from reading a property of [undefined]. *)
Inductive exn :=
| ENOENT (path : string)
| EISDIR (path : string)
| ENOTDIR (path : string)
| TypeError (what : string).

(** The completion of a JS computation: a value, or a thrown exception. *)
Inductive res (A : Type) :=
| Ok (a : A)
| Throw (e : exn).
Arguments Ok {A} a.
Arguments Throw {A} e.

Definition res_bind {A B} (r : res A) (k : A -> res B) : res B :=
  match r with
  | Ok a => k a
  | Throw e => Throw e
  end.

(** [try { ... } catch (err) { return d; }] *)
Definition res_catch {A} (r : res A) (d : A) : A :=
  match r with
  | Ok a => a
  | Throw _ => d
  end.

Definition res_map {A B} (f : A -> B) (r : res A) : res B :=
  match r with
  | Ok a => Ok (f a)
  | Throw e => Throw e
  end.

Definition is_ok {A} (r : res A) : bool :=
  match r with Ok _ => true | Throw _ => false end.

Lemma is_ok_inv {A} (r : res A) : is_ok r = true -> exists a, r = Ok a.
Proof. destruct r; [eauto | discriminate]. Qed.

(** ** The effect monad of the module

    A computation reads and writes the module-level variables [S] and can
    throw.  A throw keeps the writes done before it. *)
Definition M (S A : Type) := S -> res A * S.

Definition ret {S A} (a : A) : M S A := fun s => (Ok a, s).

Definition bind {S A B} (m : M S A) (k : A -> M S B) : M S B :=
  fun s =>
    match m s with
    | (Ok a, s') => k a s'
    | (Throw e, s') => (Throw e, s')
    end.

Definition get {S} : M S S := fun s => (Ok s, s).
Definition put {S} (s : S) : M S unit := fun _ => (Ok tt, s).

(** A stateless computation, run inside [M]. *)
Definition lift {S A} (r : res A) : M S A := fun s => (r, s).

Declare Scope js_scope.
Delimit Scope js_scope with js.
Notation "x <- c ;; k" := (bind c (fun x => k))
  (at level 100, c at next level, k at level 200) : js_scope.
Notation "c ;; k" := (bind c (fun _ => k))
  (at level 100, k at level 200) : js_scope.
Notation "'let?' x ':=' c 'in' k" := (res_bind c (fun x => k))
  (at level 10, x name, c at level 100, k at level 200) : js_scope.

(** ** Monad laws and run lemmas *)

Create HintDb agentx.
Create Rewrite HintDb js_run.

Section MonadLaws.
Context {S : Type}.

Lemma bind_ret_l {A B} (a : A) (k : A -> M S B) s :
  bind (ret a) k s = k a s.
Proof. reflexivity. Qed.

Lemma bind_lift_ok {A B} (a : A) (k : A -> M S B) s :
  bind (lift (Ok a)) k s = k a s.
Proof. reflexivity. Qed.

Lemma bind_lift_throw {A B} e (k : A -> M S B) s :
  bind (lift (Throw e)) k s = (Throw e, s).
Proof. reflexivity. Qed.

Lemma bind_get {B} (k : S -> M S B) s : bind get k s = k s s.
Proof. reflexivity. Qed.

Lemma bind_put {B} s' (k : unit -> M S B) s : bind (put s') k s = k tt s'.
Proof. reflexivity. Qed.

Lemma bind_assoc {A B C} (m : M S A) (k : A -> M S B) (h : B -> M S C) s :
  bind (bind m k) h s = bind m (fun a => bind (k a) h) s.
Proof. unfold bind. destruct (m s) as [[a|e] s']; reflexivity. Qed.

(** A computation that throws leaves the state it reached. *)
Lemma bind_throw_state {A B} (m : M S A) (k : A -> M S B) s e s' :
  m s = (Throw e, s') -> bind m k s = (Throw e, s').
Proof. unfold bind. intros ->. reflexivity. Qed.

Lemma bind_ok_state {A B} (m : M S A) (k : A -> M S B) s a s' :
  m s = (Ok a, s') -> bind m k s = k a s'.
Proof. unfold bind. intros ->. reflexivity. Qed.
End MonadLaws.

#[export] Hint Rewrite @bind_ret_l @bind_lift_ok @bind_lift_throw @bind_get
  @bind_put : js_run.

Lemma res_bind_ok {A B} (a : A) (k : A -> res B) : res_bind (Ok a) k = k a.
Proof. reflexivity. Qed.

Lemma res_bind_throw {A B} e (k : A -> res B) : res_bind (Throw e) k = Throw e.
Proof. reflexivity. Qed.

#[export] Hint Rewrite @res_bind_ok @res_bind_throw : js_run.

(** ** Shared tactics *)

(** Run a monadic computation: rewrite with the monad laws, then compute. *)
Ltac run_js := repeat (autorewrite with js_run; cbn beta iota).

(** Name the result of a [match] on a tested term of the goal. *)
Ltac case_if := match goal with
  | |- context [if ?b then _ else _] => let E := fresh "E" in destruct b eqn:E
  end.

(** ** Generic list lemmas *)

Lemma list_sum_cons (x : nat) (l : list nat) : list_sum (x :: l) = x + list_sum l.
Proof. reflexivity. Qed.

Lemma list_sum_app (l1 l2 : list nat) : list_sum (l1 ++ l2) = list_sum l1 + list_sum l2.
Proof. induction l1 as [|x l1 IH]; [reflexivity|]. cbn [app]. rewrite !list_sum_cons, IH. apply Nat.add_assoc. Qed.

#[export] Hint Rewrite list_sum_cons list_sum_app : js_run.

Lemma fold_left_map_fn {A B C} (f : A -> B -> A) (g : C -> B) (l : list C) (a : A) :
  fold_left f (map g l) a = fold_left (fun acc x => f acc (g x)) l a.
Proof. revert a. induction l as [|x l IH]; intros a; [reflexivity|]. apply IH. Qed.
