(* ===== verification/JsNum.v ===== *)
(** * JS Numbers

    A JS Number is a finite value, [NaN], [Infinity] or [-Infinity].  A
    finite value is modelled by an exact rational in [Qred] normal form
    ([fin] normalises), so two equal numbers are equal in Leibniz's sense.
    The operations follow ECMAScript on the special values (6.1.6.1 of the
    language specification): [NaN] absorbs, [Infinity - Infinity] is [NaN],
    a non-zero number divided by zero is an infinity, [0/0] is [NaN].  The
    zero divisor is +0 (signed zero is not modelled, see the root header).
    The notations of [num_scope] let the model read like the source. *)

From Stdlib Require Import List QArith Qreduction ZArith Lqa Lia Morphisms.
From S2P Require Import Prelude.

Create Rewrite HintDb js_num.

Inductive num :=
| Fin (q : Q)
| NaN
| PosInf
| NegInf.

Definition Q_eq_dec (a b : Q) : {a = b} + {a <> b}.
Proof. decide equality; [apply Pos.eq_dec | apply Z.eq_dec]. Defined.

Definition num_eq_dec (x y : num) : {x = y} + {x <> y}.
Proof. decide equality. apply Q_eq_dec. Defined.

(** A finite number, normalised. *)
Definition fin (q : Q) : num := Fin (Qred q).
Definition of_Z (z : Z) : num := fin (inject_Z z).
Definition of_nat (n : nat) : num := of_Z (Z.of_nat n).

Definition Qpos_bool (q : Q) : bool := negb (Qle_bool q 0).

Lemma Qpos_bool_true (q : Q) : 0 < q -> Qpos_bool q = true.
Proof.
  intros H. unfold Qpos_bool. apply negb_true_iff, not_true_iff_false.
  rewrite Qle_bool_iff. now apply Qlt_not_le.
Qed.

Lemma Qeq_bool_false (a b : Q) : ~ a == b -> Qeq_bool a b = false.
Proof. intros H. apply not_true_iff_false. now rewrite Qeq_bool_iff. Qed.

Lemma Qpos_bool_false (q : Q) : q <= 0 -> Qpos_bool q = false.
Proof. intros H. unfold Qpos_bool. apply negb_false_iff, Qle_bool_iff, H. Qed.

(** [-x] *)
Definition neg (x : num) : num :=
  match x with
  | Fin q => fin (- q)
  | NaN => NaN
  | PosInf => NegInf
  | NegInf => PosInf
  end.

(** [x + y] *)
Definition add (x y : num) : num :=
  match x, y with
  | NaN, _ | _, NaN => NaN
  | PosInf, NegInf | NegInf, PosInf => NaN
  | PosInf, _ | _, PosInf => PosInf
  | NegInf, _ | _, NegInf => NegInf
  | Fin a, Fin b => fin (a + b)
  end.

(** [x - y] is [x + (-y)] *)
Definition sub (x y : num) : num := add x (neg y).

(** The sign of an infinite product or quotient of [i] by a finite [q]. *)
Definition scale_inf (i : num) (q : Q) : num :=
  if Qeq_bool q 0 then NaN else if Qpos_bool q then i else neg i.

(** [x * y] *)
Definition mul (x y : num) : num :=
  match x, y with
  | NaN, _ | _, NaN => NaN
  | Fin a, Fin b => fin (a * b)
  | Fin a, _ => scale_inf y a
  | _, Fin b => scale_inf x b
  | PosInf, PosInf | NegInf, NegInf => PosInf
  | _, _ => NegInf
  end.

(** [x / y] *)
Definition div (x y : num) : num :=
  match x, y with
  | NaN, _ | _, NaN => NaN
  | Fin a, Fin b =>
      if Qeq_bool b 0 then
        (if Qeq_bool a 0 then NaN else if Qpos_bool a then PosInf else NegInf)
      else fin (a / b)
  | Fin _, _ => fin 0
  | _, Fin b => if Qeq_bool b 0 then x else scale_inf x b
  | _, _ => NaN
  end.

(** [x === y] *)
Definition strict_eq (x y : num) : bool :=
  match x, y with
  | Fin a, Fin b => Qeq_bool a b
  | PosInf, PosInf | NegInf, NegInf => true
  | _, _ => false
  end.

(** [x <= y] *)
Definition num_le (x y : num) : bool :=
  match x, y with
  | NaN, _ | _, NaN => false
  | Fin a, Fin b => Qle_bool a b
  | NegInf, _ | _, PosInf => true
  | _, _ => false
  end.

(** [Number.isFinite(x)] *)
Definition is_finite (x : num) : bool :=
  match x with Fin _ => true | _ => false end.

Declare Scope num_scope.
Delimit Scope num_scope with num.
Bind Scope num_scope with num.
Infix "+" := add : num_scope.
Infix "-" := sub : num_scope.
Infix "*" := mul : num_scope.
Infix "/" := div : num_scope.
Notation "x === y" := (strict_eq x y) (at level 70) : num_scope.
Notation "x <=? y" := (num_le x y) : num_scope.

(** ** Normal form *)

#[export] Instance fin_proper : Proper (Qeq ==> eq) fin.
Proof. intros a b H. unfold fin. f_equal. now apply Qred_complete. Qed.

Lemma fin_Qred (q : Q) : fin (Qred q) = fin q.
Proof. apply fin_proper, Qred_correct. Qed.

Lemma fin_inj (a b : Q) : fin a = fin b -> a == b.
Proof. unfold fin. intros H. injection H as H. now apply Qred_eq_iff. Qed.

(** ** Arithmetic on finite numbers *)

Lemma neg_fin (a : Q) : neg (fin a) = fin (- a).
Proof. cbn. apply fin_proper. now rewrite Qred_correct. Qed.

Lemma add_fin (a b : Q) : add (fin a) (fin b) = fin (a + b).
Proof. cbn. apply fin_proper. now rewrite !Qred_correct. Qed.

Lemma sub_fin (a b : Q) : sub (fin a) (fin b) = fin (a - b).
Proof. unfold sub. rewrite neg_fin, add_fin. reflexivity. Qed.

Lemma mul_fin (a b : Q) : mul (fin a) (fin b) = fin (a * b).
Proof. cbn. apply fin_proper. now rewrite !Qred_correct. Qed.

Lemma div_fin (a b : Q) : ~ b == 0 -> div (fin a) (fin b) = fin (a / b).
Proof.
  intros Hb. cbn.
  destruct (Qeq_bool (Qred b) 0) eqn:E.
  - apply Qeq_bool_eq in E. rewrite Qred_correct in E. contradiction.
  - apply fin_proper. now rewrite !Qred_correct.
Qed.

(** The tests of the operations do not see the normalisation. *)
Lemma Qeq_bool_Qred (a b : Q) : Qeq_bool (Qred a) b = Qeq_bool a b.
Proof.
  destruct (Qeq_bool a b) eqn:E.
  - apply Qeq_bool_iff. rewrite Qred_correct. now apply Qeq_bool_iff.
  - apply not_true_iff_false. rewrite Qeq_bool_iff, Qred_correct.
    rewrite <- Qeq_bool_iff. now rewrite E.
Qed.

Lemma Qle_bool_Qred (a b : Q) : Qle_bool (Qred a) b = Qle_bool a b.
Proof.
  destruct (Qle_bool a b) eqn:E.
  - apply Qle_bool_iff. rewrite Qred_correct. now apply Qle_bool_iff.
  - apply not_true_iff_false. rewrite Qle_bool_iff, Qred_correct.
    rewrite <- Qle_bool_iff. now rewrite E.
Qed.

(** A number divided by zero. *)
Lemma div_fin_zero (a b : Q) :
  b == 0 ->
  div (fin a) (fin b) =
  (if Qeq_bool a 0 then NaN else if Qpos_bool a then PosInf else NegInf).
Proof.
  intros Hb. cbn. unfold Qpos_bool. rewrite !Qeq_bool_Qred, Qle_bool_Qred.
  now rewrite (proj2 (Qeq_bool_iff b 0) Hb).
Qed.

#[export] Hint Rewrite neg_fin add_fin sub_fin mul_fin fin_Qred : js_num.

(** [NaN] absorbs. *)
Lemma add_NaN_r (x : num) : add x NaN = NaN.
Proof. destruct x; reflexivity. Qed.

Lemma div_NaN_l (y : num) : div NaN y = NaN.
Proof. reflexivity. Qed.

Lemma sub_NaN_r (x : num) : sub x NaN = NaN.
Proof. apply add_NaN_r. Qed.

Lemma div_NaN_r (x : num) : div x NaN = NaN.
Proof. destruct x; reflexivity. Qed.

#[export] Hint Rewrite add_NaN_r div_NaN_l sub_NaN_r div_NaN_r : js_num.

Lemma of_Z_fin (z : Z) : of_Z z = fin (inject_Z z).
Proof. reflexivity. Qed.

Lemma of_nat_fin (n : nat) : of_nat n = fin (inject_Z (Z.of_nat n)).
Proof. reflexivity. Qed.

(** The finite value of a number, when it has one. *)
Definition to_Q (x : num) : option Q :=
  match x with Fin q => Some q | _ => None end.

Lemma to_Q_fin (q : Q) : to_Q (fin q) = Some (Qred q).
Proof. reflexivity. Qed.

(** ** Counters *)

Lemma add_of_nat (a b : nat) : add (of_nat a) (of_nat b) = of_nat (a + b).
Proof.
  unfold of_nat, of_Z. rewrite add_fin. apply fin_proper.
  now rewrite Nat2Z.inj_add, inject_Z_plus.
Qed.

Lemma of_Z_0_of_nat : of_Z 0 = of_nat 0.
Proof. reflexivity. Qed.

#[export] Hint Rewrite add_of_nat : js_num.

(** A counter as a rational. *)
Definition qn (n : nat) : Q := inject_Z (Z.of_nat n).

Lemma of_nat_qn (n : nat) : of_nat n = fin (qn n).
Proof. reflexivity. Qed.

Lemma sub_of_nat (a b : nat) : sub (of_nat a) (of_nat b) = fin (qn a - qn b).
Proof. unfold of_nat, of_Z. now rewrite sub_fin. Qed.

Lemma qn_add (a b : nat) : qn (a + b) == qn a + qn b.
Proof. unfold qn. now rewrite Nat2Z.inj_add, inject_Z_plus. Qed.

Lemma qn_le (a b : nat) : (a <= b)%nat -> qn a <= qn b.
Proof. intros H. unfold qn. rewrite <- Zle_Qle. lia. Qed.

Lemma qn_lt (a b : nat) : (a < b)%nat -> qn a < qn b.
Proof. intros H. unfold qn. rewrite <- Zlt_Qlt. lia. Qed.

Lemma qn_neq (a b : nat) : a <> b -> ~ qn a == qn b.
Proof. intros H E. unfold qn in E. apply (proj1 (inject_Z_injective _ _)) in E. lia. Qed.

Lemma qn_nonneg (a : nat) : 0 <= qn a.
Proof. apply (qn_le 0). lia. Qed.

(** A quotient of a part by a positive whole lies in [0, 1]. *)
Lemma Qdiv_unit (x d : Q) : 0 <= x -> x <= d -> 0 < d -> 0 <= x / d <= 1.
Proof.
  intros H0 H1 Hd. split.
  - apply Qle_shift_div_l; [exact Hd | lra].
  - apply Qle_shift_div_r; [exact Hd | lra].
Qed.

Lemma qn_pos (d : nat) : (0 < d)%nat -> 0 < qn d.
Proof. intros H. exact (qn_lt 0 d H). Qed.

Lemma qn_inj (a b : nat) : qn a == qn b -> a = b.
Proof. intros H. destruct (Nat.eq_dec a b) as [E|E]; [exact E|]. now destruct (qn_neq a b E). Qed.

(** Two outputs [1 - a / x] and [1 - a / y] with positive denominators
    agree exactly when the numerator is 0 or the denominators agree. *)
Lemma one_minus_div_eq (a x y : Q) :
  0 < x -> 0 < y -> (1 - a / x == 1 - a / y <-> a == 0 \/ x == y).
Proof.
  intros Hx Hy. split.
  - intros H.
    assert (E1 : a * y == (a / x) * (x * y)) by (field; intros ?; lra).
    assert (E2 : a * x == (a / y) * (x * y)) by (field; intros ?; lra).
    assert (E : a / x == a / y) by lra.
    assert (Hm : a * (y - x) == 0).
    { setoid_replace (a * (y - x)) with (a * y - a * x) by ring. rewrite E1, E2, E. ring. }
    apply Qmult_integral in Hm as [Ha | Hxy]; [now left | right; lra].
  - intros [Ha | Hxy].
    + rewrite Ha. unfold Qdiv. rewrite !Qmult_0_l. reflexivity.
    + rewrite Hxy. reflexivity.
Qed.

(** ** Integers *)

Lemma Qred_inject_Z (z : Z) : Qred (inject_Z z) = inject_Z z.
Proof.
  unfold Qred, inject_Z. pose proof (Z.ggcd_gcd z 1) as Hg.
  pose proof (Z.ggcd_correct_divisors z 1) as Hd.
  destruct (Z.ggcd z 1) as [g [aa bb]]. cbn in *. rewrite Z.gcd_1_r in Hg. subst g.
  destruct Hd as [Ha Hb]. f_equal; [lia|]. replace bb with 1%Z by lia. reflexivity.
Qed.

Lemma of_Z_Fin (z : Z) : of_Z z = Fin (inject_Z z).
Proof. unfold of_Z, fin. now rewrite Qred_inject_Z. Qed.

Lemma strict_eq_of_Z (a b : Z) : (of_Z a === of_Z b)%num = Z.eqb a b.
Proof.
  rewrite !of_Z_Fin. cbn. destruct (Z.eqb_spec a b) as [->|Hne].
  - apply Qeq_bool_refl.
  - apply Qeq_bool_false. intros E. apply Hne. now apply inject_Z_injective.
Qed.

Lemma num_le_of_Z (a b : Z) : (of_Z a <=? of_Z b)%num = Z.leb a b.
Proof.
  rewrite !of_Z_Fin. cbn. destruct (Z.leb_spec a b) as [H|H].
  - apply Qle_bool_iff. now rewrite <- Zle_Qle.
  - apply not_true_iff_false. rewrite Qle_bool_iff, <- Zle_Qle. lia.
Qed.

Lemma div_of_Z (a b : Z) : b <> 0%Z -> (of_Z a / of_Z b)%num = fin (inject_Z a / inject_Z b).
Proof.
  intros Hb. unfold of_Z. rewrite div_fin; [reflexivity|].
  intros E. apply Hb. now apply inject_Z_injective.
Qed.

(** ** Sums in a loop *)

Lemma fold_add_of_nat {A} (f : A -> num) (g : A -> nat) (l : list A) (a : nat) :
  (forall x, In x l -> f x = of_nat (g x)) ->
  fold_left (fun t x => add t (f x)) l (of_nat a) = of_nat (a + list_sum (map g l)).
Proof.
  revert a. induction l as [|x l IH]; intros a Hf; cbn [fold_left map].
  - cbn. now rewrite Nat.add_0_r.
  - rewrite Hf by now left. rewrite add_of_nat, IH by (intros; apply Hf; now right).
    rewrite list_sum_cons. f_equal. lia.
Qed.

(** The sum of the elements a test selects, as a [forEach] with an [if]
    accumulates it. *)
Lemma fold_add_if {A} (p : A -> bool) (f : A -> num) (g : A -> nat) (l : list A) (a : nat) :
  (forall x, In x l -> p x = true -> f x = of_nat (g x)) ->
  fold_left (fun t x => if p x then add t (f x) else t) l (of_nat a) =
  of_nat (a + list_sum (map g (filter p l))).
Proof.
  revert a. induction l as [|x l IH]; intros a Hf; cbn [fold_left filter].
  - cbn. now rewrite Nat.add_0_r.
  - destruct (p x) eqn:Hp.
    + rewrite (Hf x (or_introl eq_refl) Hp), add_of_nat, IH by (intros y Hy; apply Hf; now right).
      cbn [map]. rewrite list_sum_cons. f_equal. lia.
    + apply IH. intros y Hy. apply Hf. now right.
Qed.

Lemma mul_of_nat (a b : nat) : mul (of_nat a) (of_nat b) = of_nat (a * b).
Proof.
  rewrite !of_nat_qn, mul_fin. apply fin_proper. unfold qn. rewrite Nat2Z.inj_mul, inject_Z_mult. reflexivity.
Qed.

Lemma fold_add_from_NaN {A} (f : A -> num) (l : list A) :
  fold_left (fun t x => add t (f x)) l NaN = NaN.
Proof. induction l as [|x l IH]; [reflexivity|]. exact IH. Qed.

(** One [NaN] term makes the whole sum [NaN]. *)
Lemma fold_add_NaN {A} (f : A -> num) (l : list A) (x : A) (acc : num) :
  In x l -> f x = NaN -> fold_left (fun t y => add t (f y)) l acc = NaN.
Proof.
  revert acc. induction l as [|y l IH]; intros acc Hin Hx; [destruct Hin|].
  destruct Hin as [<- | Hin]; cbn [fold_left].
  - rewrite Hx, add_NaN_r. apply fold_add_from_NaN.
  - now apply IH.
Qed.
