(* ===== verification/JsString.v ===== *)
(** * The string builtins the module calls

    [String.prototype.trim], [split] with a one-character separator,
    [indexOf], and the global [parseInt(s, 10)], over Stdlib strings of
    8-bit characters.  [show_nat] renders a counter in decimal, as the
    kernel writes it in [/proc]; the round-trip lemmas ([parseInt_show_nat],
    [split_join]) let the component files state their theorems about files
    built from counters. *)

From Stdlib Require Import String Ascii List ZArith QArith Lia.
From Stdlib Require Import DecimalString DecimalNat.
From S2P Require Import Prelude JsNum.
Import ListNotations.
Open Scope string_scope.

(** ** Characters *)

(** WhiteSpace and LineTerminator code points below 256: TAB, LF, VT, FF,
    CR, SPACE and NBSP. *)
Definition is_ws (c : ascii) : bool :=
  existsb (Nat.eqb (nat_of_ascii c)) [9; 10; 11; 12; 13; 32; 160]%nat.

(** The value of a decimal digit. *)
Definition digit_val (c : ascii) : option nat :=
  let n := nat_of_ascii c in
  if (48 <=? n)%nat && (n <=? 57)%nat then Some (n - 48)%nat else None.

Definition is_digit (c : ascii) : bool :=
  match digit_val c with Some _ => true | None => false end.

(** ** [trim] *)

Fixpoint trim_start (s : string) : string :=
  match s with
  | EmptyString => EmptyString
  | String c s' => if is_ws c then trim_start s' else s
  end.

Fixpoint trim_end (s : string) : string :=
  match s with
  | EmptyString => EmptyString
  | String c s' =>
      match trim_end s' with
      | EmptyString => if is_ws c then EmptyString else String c EmptyString
      | t => String c t
      end
  end.

Definition trim (s : string) : string := trim_end (trim_start s).

(** ** [split] on a one-character separator *)

Fixpoint split (sep : ascii) (s : string) : list string :=
  match s with
  | EmptyString => [EmptyString]
  | String c s' =>
      match split sep s' with
      | [] => [String c EmptyString]
      | p :: ps =>
          if Ascii.eqb c sep then EmptyString :: p :: ps else String c p :: ps
      end
  end.

(** [arr[i]] with [undefined] as [None], and [String(v)] of the result. *)
Definition js_str (v : option string) : string :=
  match v with Some s => s | None => "undefined" end.

(** ** [indexOf] *)

Fixpoint index_from (needle hay : string) (i : nat) : option nat :=
  if prefix needle hay then Some i
  else match hay with
       | EmptyString => None
       | String _ hay' => index_from needle hay' (S i)
       end.

(** [hay.indexOf(needle)]: the first position, or -1. *)
Definition indexOf (hay needle : string) : Z :=
  match index_from needle hay 0 with
  | Some i => Z.of_nat i
  | None => (-1)%Z
  end.

(** ** [parseInt(s, 10)] *)

Fixpoint take_digits (s : string) : string :=
  match s with
  | String c s' => if is_digit c then String c (take_digits s') else EmptyString
  | EmptyString => EmptyString
  end.

Fixpoint digits_value (acc : Z) (s : string) : Z :=
  match s with
  | EmptyString => acc
  | String c s' =>
      match digit_val c with
      | Some d => digits_value (10 * acc + Z.of_nat d)%Z s'
      | None => acc
      end
  end.

(** The sign and the rest of a string, after the leading whitespace. *)
Definition split_sign (s : string) : Z * string :=
  match s with
  | String c r =>
      if Ascii.eqb c "-" then ((-1)%Z, r)
      else if Ascii.eqb c "+" then (1%Z, r)
      else (1%Z, s)
  | EmptyString => (1%Z, s)
  end.

(** ECMAScript 19.2.5 with radix 10: skip leading whitespace, read a sign,
    then the longest run of decimal digits; no digit gives [NaN]. *)
Definition parse_body (sign : Z) (body : string) : num :=
  match take_digits body with
  | EmptyString => NaN
  | ds => of_Z (sign * digits_value 0 ds)
  end.

Definition parseInt (s : string) : num :=
  let p := split_sign (trim_start s) in parse_body (fst p) (snd p).

(** ** Decimal rendering *)

Definition show_nat (n : nat) : string :=
  NilEmpty.string_of_uint (Nat.to_uint n).

Fixpoint join (sep : ascii) (l : list string) : string :=
  match l with
  | [] => EmptyString
  | [x] => x
  | x :: l' => x ++ String sep (join sep l')
  end.

(** A string holds no occurrence of [c]. *)
Fixpoint no_char (c : ascii) (s : string) : bool :=
  match s with
  | EmptyString => true
  | String c' s' => negb (Ascii.eqb c' c) && no_char c s'
  end.

(** ** Round trips *)

Lemma append_cons (c : ascii) (s t : string) :
  (String c s ++ t)%string = String c (s ++ t)%string.
Proof. reflexivity. Qed.

Lemma append_nil_r (s : string) : (s ++ EmptyString)%string = s.
Proof. induction s as [|c s IH]; cbn; [reflexivity | now rewrite IH]. Qed.

Lemma to_uint_nonnil (n : nat) : Nat.to_uint n <> Decimal.Nil.
Proof.
  rewrite <- (Unsigned.of_to n), Unsigned.to_of. apply DecimalFacts.unorm_nonnil.
Qed.

Lemma digits_value_cons (acc : Z) (c : ascii) (s : string) (k : nat) :
  digit_val c = Some k ->
  digits_value acc (String c s) = digits_value (10 * acc + Z.of_nat k)%Z s.
Proof. intros H. cbn [digits_value]. now rewrite H. Qed.

(** Compute the value of a concrete digit in the goal. *)
Ltac eval_digit :=
  match goal with
  | |- context [(nat_of_ascii ?c - 48)%nat] =>
      let v := eval vm_compute in (nat_of_ascii c - 48)%nat in
      change (nat_of_ascii c - 48)%nat with v
  end.

(** Reading the digits of a rendered number accumulates [Nat.of_uint]. *)
Lemma digits_value_uint (d : Decimal.uint) (acc : nat) :
  digits_value (Z.of_nat acc) (NilEmpty.string_of_uint d) =
  Z.of_nat (Nat.of_uint_acc d acc).
Proof.
  revert acc; induction d; intros acc; cbn [NilEmpty.string_of_uint Nat.of_uint_acc];
    [reflexivity|..]; erewrite digits_value_cons by reflexivity; rewrite <- IHd;
    f_equal; rewrite Nat.tail_mul_spec; eval_digit; lia.
Qed.

(** Every character of a rendered number is a digit. *)
Lemma take_digits_uint (d : Decimal.uint) (rest : string) :
  (match rest with String c _ => is_digit c = false | EmptyString => True end) ->
  take_digits (NilEmpty.string_of_uint d ++ rest) = NilEmpty.string_of_uint d.
Proof.
  intros Hr. induction d; cbn [NilEmpty.string_of_uint append take_digits];
    try (rewrite IHd; reflexivity).
  destruct rest as [|c r]; [reflexivity|]. cbn. now rewrite Hr.
Qed.

Lemma show_nat_cons (n : nat) :
  exists c s, show_nat n = String c s /\ is_digit c = true.
Proof.
  unfold show_nat. pose proof (to_uint_nonnil n) as H.
  destruct (Nat.to_uint n); [contradiction| ..]; cbn; eauto.
Qed.

(** A digit is neither whitespace nor a sign. *)
Lemma digit_char (c : ascii) :
  is_digit c = true ->
  is_ws c = false /\ Ascii.eqb c "-" = false /\ Ascii.eqb c "+" = false.
Proof. destruct c as [[] [] [] [] [] [] [] []]; vm_compute; intuition congruence. Qed.

(** The digits of a rendered counter followed by a non-digit. *)
Lemma parse_body_show_nat (sign : Z) (n : nat) (rest : string) :
  (match rest with String c _ => is_digit c = false | EmptyString => True end) ->
  parse_body sign (show_nat n ++ rest) = of_Z (sign * Z.of_nat n).
Proof.
  intros Hr. unfold parse_body.
  destruct (show_nat_cons n) as (c & s & Hs & Hc).
  unfold show_nat at 1. rewrite take_digits_uint by exact Hr.
  fold (show_nat n). rewrite Hs. rewrite <- Hs.
  unfold show_nat. rewrite (digits_value_uint _ 0).
  change (Nat.of_uint_acc (Nat.to_uint n) 0) with (Nat.of_uint (Nat.to_uint n)).
  now rewrite Unsigned.of_to.
Qed.

(** [parseInt] reads back a rendered counter followed by a non-digit. *)
Lemma parseInt_show_nat_app (n : nat) (rest : string) :
  (match rest with String c _ => is_digit c = false | EmptyString => True end) ->
  parseInt (show_nat n ++ rest) = of_nat n.
Proof.
  intros Hr. unfold parseInt.
  destruct (show_nat_cons n) as (c & s & Hs & Hc).
  assert (Hsplit : split_sign (trim_start (show_nat n ++ rest)) = (1%Z, show_nat n ++ rest)).
  { rewrite Hs. destruct (digit_char c Hc) as (Hws & Hm & Hp).
    cbn [append trim_start]. rewrite Hws. cbn [split_sign]. now rewrite Hm, Hp. }
  rewrite Hsplit. cbn [fst snd]. rewrite parse_body_show_nat by exact Hr.
  unfold of_nat. f_equal. lia.
Qed.

Lemma parseInt_show_nat (n : nat) : parseInt (show_nat n) = of_nat n.
Proof.
  rewrite <- (append_nil_r (show_nat n)). now apply parseInt_show_nat_app.
Qed.

(** ** [split] and [join] *)

Lemma split_cons (sep : ascii) (s : string) :
  exists p ps, split sep s = p :: ps.
Proof.
  induction s as [|c s (p & ps & IH)]; cbn; [eauto|]. rewrite IH.
  destruct (Ascii.eqb c sep); eauto.
Qed.

Lemma split_no_char (sep : ascii) (a : string) :
  no_char sep a = true -> split sep a = [a].
Proof.
  induction a as [|c a IH]; cbn; [reflexivity|].
  intros [Hc Ha]%andb_prop. rewrite IH by exact Ha.
  apply negb_true_iff in Hc. now rewrite Hc.
Qed.

Lemma split_app_sep (sep : ascii) (a b : string) :
  no_char sep a = true -> split sep (a ++ String sep b) = a :: split sep b.
Proof.
  induction a as [|c a IH]; cbn.
  - intros _. destruct (split_cons sep b) as (p & ps & ->). now rewrite Ascii.eqb_refl.
  - intros [Hc Ha]%andb_prop. rewrite IH by exact Ha.
    apply negb_true_iff in Hc. now rewrite Hc.
Qed.

(** Splitting a joined list gives the list back, when no element holds the
    separator. *)
Lemma split_join (sep : ascii) (l : list string) :
  l <> [] -> Forall (fun x => no_char sep x = true) l -> split sep (join sep l) = l.
Proof.
  induction l as [|x [|y l] IH]; intros Hne Hall; [contradiction| |].
  - inversion_clear Hall. cbn. now apply split_no_char.
  - inversion_clear Hall as [|? ? Hx Hrest].
    change (join sep (x :: y :: l)) with (x ++ String sep (join sep (y :: l)))%string.
    rewrite split_app_sep by exact Hx. rewrite IH; [reflexivity|discriminate|exact Hrest].
Qed.

Lemma digit_neq (c c' : ascii) :
  is_digit c' = true -> is_digit c = false -> Ascii.eqb c' c = false.
Proof. intros H1 H2. destruct (Ascii.eqb_spec c' c); [subst; congruence | reflexivity]. Qed.

(** A rendered counter holds no non-digit character. *)
Lemma no_char_show_nat (c : ascii) (n : nat) :
  is_digit c = false -> no_char c (show_nat n) = true.
Proof.
  intros Hc. unfold show_nat. induction (Nat.to_uint n); cbn [NilEmpty.string_of_uint no_char];
    [reflexivity|..]; rewrite digit_neq by (reflexivity || exact Hc); exact IHu.
Qed.

(** ** [trim] of rendered values *)

(** Every character of [s] satisfies [f]. *)
Fixpoint all_chars (f : ascii -> bool) (s : string) : bool :=
  match s with
  | EmptyString => true
  | String c s' => f c && all_chars f s'
  end.

Lemma trim_end_app (s t : string) :
  all_chars (fun c => negb (is_ws c)) s = true -> trim_end (s ++ t) = (s ++ trim_end t)%string.
Proof.
  induction s as [|c s IH]; [reflexivity|]. cbn [all_chars append trim_end].
  intros [Hc Hs]%andb_prop. apply negb_true_iff in Hc. rewrite IH by exact Hs.
  destruct (s ++ trim_end t)%string; [now rewrite Hc | reflexivity].
Qed.

Lemma trim_end_ws (t : string) : all_chars is_ws t = true -> trim_end t = EmptyString.
Proof.
  induction t as [|c t IH]; [reflexivity|]. cbn [all_chars trim_end].
  intros [Hc Ht]%andb_prop. rewrite IH by exact Ht. now rewrite Hc.
Qed.

Lemma digits_not_ws (d : Decimal.uint) :
  all_chars (fun c => negb (is_ws c)) (NilEmpty.string_of_uint d) = true.
Proof. induction d; cbn [NilEmpty.string_of_uint all_chars]; [reflexivity|..]; exact IHd. Qed.

(** A value followed by whitespace, as a one-line file holds it. *)
Lemma trim_value (s t : string) (c : ascii) :
  is_ws c = false -> all_chars (fun c => negb (is_ws c)) (String c s) = true ->
  all_chars is_ws t = true -> trim (String c s ++ t) = String c s.
Proof.
  intros Hc Hs Ht. unfold trim. cbn [append trim_start]. rewrite Hc.
  change (String c (s ++ t)) with (String c s ++ t)%string.
  rewrite trim_end_app, trim_end_ws by assumption. apply append_nil_r.
Qed.

(** ** Signed decimal rendering *)

Definition show_Z (z : Z) : string :=
  if (z <? 0)%Z then String "-" (show_nat (Z.to_nat (- z))) else show_nat (Z.to_nat z).

Lemma parseInt_show_Z_app (z : Z) (rest : string) :
  (match rest with String c _ => is_digit c = false | EmptyString => True end) ->
  parseInt (show_Z z ++ rest) = of_Z z.
Proof.
  intros Hr. unfold show_Z. destruct (Z.ltb_spec z 0) as [Hz|Hz].
  - unfold parseInt.
    change (String "-" (show_nat (Z.to_nat (- z))) ++ rest)%string
      with (String "-" (show_nat (Z.to_nat (- z)) ++ rest)).
    change (split_sign (trim_start (String "-" (show_nat (Z.to_nat (- z)) ++ rest))))
      with ((-1)%Z, (show_nat (Z.to_nat (- z)) ++ rest)%string).
    cbn [fst snd]. rewrite parse_body_show_nat by exact Hr. f_equal. lia.
  - rewrite parseInt_show_nat_app by exact Hr. unfold of_nat. f_equal. lia.
Qed.

(** A rendered integer followed by a newline, trimmed and parsed. *)
Lemma parseInt_trim_show_Z (z : Z) :
  parseInt (trim (show_Z z ++ String "010" EmptyString)) = of_Z z.
Proof.
  assert (Hall : all_chars (fun c => negb (is_ws c)) (show_Z z) = true).
  { unfold show_Z, show_nat. destruct (z <? 0)%Z; cbn [all_chars];
      rewrite ?digits_not_ws; reflexivity. }
  assert (Hne : exists c s, show_Z z = String c s /\ is_ws c = false).
  { unfold show_Z. destruct (z <? 0)%Z; [eauto|].
    destruct (show_nat_cons (Z.to_nat z)) as (c & s & Hs & Hc).
    exists c, s. split; [exact Hs|]. now apply digit_char. }
  destruct Hne as (c & s & Hs & Hc). rewrite Hs in *.
  rewrite trim_value by (assumption || reflexivity). rewrite <- Hs.
  rewrite <- (append_nil_r (show_Z z)). now apply parseInt_show_Z_app.
Qed.

(** [s] is empty or its last character is not whitespace. *)
Fixpoint ends_nonws (s : string) : bool :=
  match s with
  | EmptyString => true
  | String c EmptyString => negb (is_ws c)
  | String _ s' => ends_nonws s'
  end.

Lemma trim_end_app_last (s t : string) :
  ends_nonws s = true -> trim_end (s ++ t) = (s ++ trim_end t)%string.
Proof.
  induction s as [|c s IH]; [reflexivity|]. intros Hs. cbn [append trim_end].
  destruct s as [|c' s'].
  - cbn in Hs |- *. apply negb_true_iff in Hs. destruct (trim_end t); [now rewrite Hs|reflexivity].
  - rewrite IH by exact Hs. reflexivity.
Qed.

Lemma ends_nonws_app (s t : string) :
  t <> EmptyString -> ends_nonws (s ++ t) = ends_nonws t.
Proof.
  intros Ht. induction s as [|c s IH]; [reflexivity|]. cbn [append].
  rewrite <- IH. destruct (s ++ t)%string eqn:E; [|reflexivity].
  destruct s; cbn in E; [congruence | discriminate].
Qed.

(** A line followed by a newline, trimmed. *)
Lemma trim_line (c : ascii) (s : string) :
  is_ws c = false -> ends_nonws (String c s) = true ->
  trim (String c s ++ String "010" EmptyString) = String c s.
Proof.
  intros Hc Hs. unfold trim. cbn [append trim_start]. rewrite Hc.
  change (String c (s ++ String "010" EmptyString)) with (String c s ++ String "010" EmptyString)%string.
  rewrite trim_end_app_last by exact Hs.
  replace (trim_end (String "010" EmptyString)) with EmptyString by reflexivity.
  apply append_nil_r.
Qed.

(** A text that starts and ends with a non-blank, followed by anything:
    [trim] keeps the text and trims only the tail. *)
Lemma trim_app_nonws (c : ascii) (s t : string) :
  is_ws c = false -> ends_nonws (String c s) = true ->
  trim (String c s ++ t) = (String c s ++ trim_end t)%string.
Proof.
  intros Hc Hs. unfold trim. cbn [append trim_start]. rewrite Hc.
  change (String c (s ++ t)) with (String c s ++ t)%string.
  now apply trim_end_app_last.
Qed.

Lemma no_char_app (c : ascii) (a b : string) :
  no_char c (a ++ b) = no_char c a && no_char c b.
Proof. induction a as [|x a IH]; cbn; [reflexivity|]. now rewrite IH, andb_assoc. Qed.

(** A field of a space-separated line: non-empty, with no whitespace. *)
Definition field_ok (f : string) : bool :=
  negb (String.eqb f EmptyString) && all_chars (fun c => negb (is_ws c)) f.

Lemma field_ok_no_space (f : string) : field_ok f = true -> no_char " " f = true.
Proof.
  unfold field_ok. intros [_ H]%andb_prop. induction f as [|c f IH]; [reflexivity|].
  cbn in H |- *. apply andb_prop in H as [Hc Hf]. rewrite IH by exact Hf.
  destruct (Ascii.eqb_spec c " "); [subst; discriminate | reflexivity].
Qed.

Lemma field_ok_ends (f : string) : field_ok f = true -> ends_nonws f = true.
Proof.
  unfold field_ok. intros [_ H]%andb_prop. induction f as [|c f IH]; [reflexivity|].
  cbn in H. apply andb_prop in H as [Hc Hf]. destruct f; [exact Hc|]. now apply IH.
Qed.

Lemma append_assoc_str (a b c : string) : (a ++ (b ++ c) = (a ++ b) ++ c)%string.
Proof. induction a as [|x a IH]; cbn; [reflexivity | now rewrite IH]. Qed.

Lemma join_snoc (sep : ascii) (l : list string) (x : string) :
  join sep (l ++ [x]) = match l with [] => x | _ => (join sep l ++ String sep x)%string end.
Proof.
  induction l as [|y l IH]; [reflexivity|]. destruct l as [|z l]; [reflexivity|].
  change (join sep (app (y :: z :: l) [x]))
    with (append y (String sep (join sep (app (z :: l) [x])))).
  rewrite IH. change (join sep (y :: z :: l)) with (append y (String sep (join sep (z :: l)))).
  now rewrite <- append_assoc_str.
Qed.

Lemma ends_nonws_join_last (sep : ascii) (l : list string) (x : string) :
  x <> EmptyString -> ends_nonws x = true -> ends_nonws (join sep (l ++ [x])) = true.
Proof.
  intros Hne He. rewrite join_snoc. destruct l as [|y l]; [exact He|].
  rewrite ends_nonws_app by discriminate. destruct x as [|c x]; [contradiction|]. exact He.
Qed.

Lemma ends_nonws_join (sep : ascii) (l : list string) (x : string) :
  field_ok x = true -> ends_nonws (join sep (l ++ [x])) = true.
Proof.
  intros Hx. apply ends_nonws_join_last; [|now apply field_ok_ends].
  intros ->. discriminate.
Qed.

Lemma field_ok_show_nat (n : nat) : field_ok (show_nat n) = true.
Proof.
  destruct (show_nat_cons n) as (c & s & Hs & _). unfold field_ok. rewrite Hs. cbn [String.eqb].
  rewrite <- Hs. apply digits_not_ws.
Qed.

(** A line of fields, followed by a newline, trimmed and split on spaces. *)
Lemma split_trim_join_line (l : list string) :
  l <> [] -> Forall (fun f => field_ok f = true) l ->
  split " "%char (trim (join " "%char l ++ String "010" EmptyString)) = l.
Proof.
  intros Hne Hall.
  assert (Hends : ends_nonws (join " "%char l) = true).
  { destruct (exists_last Hne) as (l' & x & ->). apply ends_nonws_join.
    apply Forall_app in Hall as [_ Hx]. now inversion Hx. }
  destruct l as [|f l]; [contradiction|]. inversion Hall as [|? ? Hf _]; subst.
  destruct f as [|c s]; [discriminate|].
  assert (Hc : is_ws c = false).
  { unfold field_ok in Hf. apply andb_prop in Hf as [_ Hf]. cbn [all_chars] in Hf.
    apply andb_prop in Hf as [Hf _]. now apply negb_true_iff. }
  destruct (join " "%char (String c s :: l)) eqn:Ej.
  { destruct l; discriminate. }
  assert (a = c) as -> by (destruct l; cbn in Ej; congruence).
  rewrite trim_line by assumption. rewrite <- Ej.
  apply split_join; [discriminate|]. eapply Forall_impl; [|exact Hall].
  intros f Hf'. now apply field_ok_no_space.
Qed.

Lemma join_cons (sep : ascii) (x : string) (l : list string) :
  l <> [] -> join sep (x :: l) = (x ++ String sep (join sep l))%string.
Proof. destruct l; [contradiction | reflexivity]. Qed.

(** A line of a text file: [s] and a newline. *)
Definition line_nl (s : string) : string := s ++ String "010" EmptyString.

(** ** [indexOf] at position 0 *)

Lemma index_from_ge (needle hay : string) (i j : nat) :
  index_from needle hay i = Some j -> (i <= j)%nat.
Proof.
  revert i. induction hay as [|c hay IH]; intros i; cbn [index_from].
  - destruct (prefix needle ""); intros H; [injection H as <-; lia | discriminate].
  - destruct (prefix needle (String c hay)); intros H; [injection H as <-; lia|].
    apply IH in H. lia.
Qed.

(** [hay.indexOf(needle) === 0] is [needle] being a prefix of [hay]. *)
Lemma indexOf_zero (hay needle : string) :
  Z.eqb (indexOf hay needle) 0 = prefix needle hay.
Proof.
  unfold indexOf. destruct hay as [|c hay]; cbn [index_from].
  - destruct (prefix needle ""); reflexivity.
  - destruct (prefix needle (String c hay)); [reflexivity|].
    destruct (index_from needle hay 1) as [j|] eqn:E; [|reflexivity].
    apply index_from_ge in E. apply Z.eqb_neq. lia.
Qed.
