(* ===== verification/Host.v ===== *)
(** * The host the module reads

    The [os] facts the module uses ([os.type()], [os.cpus()],
    [os.loadavg()], [os.totalmem()], [os.freemem()], [os.uptime()]), the
    wall clock read by [new Date().getTime()], and the file system reached
    through [fs.readFileSync], [fs.existsSync] and [fs.readdirSync].  A
    [world] is what one call of the module sees: the host does not change
    during a call.  The file system is two [gmap]s: regular files with their
    contents, and directories with their entries.  [os.cpus()[i].times]
    holds integer milliseconds, so its fields are [nat]. *)

From stdpp Require Import base gmap strings.
From Stdlib Require Import String ZArith.
From S2P Require Import Prelude JsNum.

#[export] Instance num_eq_decision : EqDecision num := num_eq_dec.

(** [os.cpus()[i].times] *)
Record cpu_times := {
  user : nat;
  nice : nat;
  sys : nat;
  idle : nat;
  irq : nat
}.

Record world := {
  os_type : string;
  os_cpus : list cpu_times;
  os_loadavg : num * num * num;
  os_totalmem : num;
  os_freemem : num;
  os_uptime : num;
  fs_files : gmap string string;
  fs_dirs : gmap string (list string);
  now_ms : Z
}.

(** [os.type() === 'Linux'] *)
Definition is_linux (w : world) : bool := String.eqb (os_type w) "Linux".

(** [fs.readFileSync(p)]: a file's contents; reading a directory throws
    [EISDIR], a missing path [ENOENT]. *)
Definition readFileSync (w : world) (p : string) : res string :=
  match fs_files w !! p with
  | Some s => Ok s
  | None =>
      match fs_dirs w !! p with
      | Some _ => Throw (EISDIR p)
      | None => Throw (ENOENT p)
      end
  end.

(** [fs.existsSync(p)]: a file or a directory. *)
Definition existsSync (w : world) (p : string) : bool :=
  match fs_files w !! p, fs_dirs w !! p with
  | None, None => false
  | _, _ => true
  end.

(** [fs.readdirSync(p)] *)
Definition readdirSync (w : world) (p : string) : res (list string) :=
  match fs_dirs w !! p with
  | Some l => Ok l
  | None =>
      match fs_files w !! p with
      | Some _ => Throw (ENOTDIR p)
      | None => Throw (ENOENT p)
      end
  end.

(** ** Building worlds *)

Definition set_file (p s : string) (w : world) : world :=
  {| os_type := os_type w; os_cpus := os_cpus w; os_loadavg := os_loadavg w;
     os_totalmem := os_totalmem w; os_freemem := os_freemem w;
     os_uptime := os_uptime w; fs_files := <[p := s]> (fs_files w);
     fs_dirs := fs_dirs w; now_ms := now_ms w |}.

Definition set_dir (p : string) (l : list string) (w : world) : world :=
  {| os_type := os_type w; os_cpus := os_cpus w; os_loadavg := os_loadavg w;
     os_totalmem := os_totalmem w; os_freemem := os_freemem w;
     os_uptime := os_uptime w; fs_files := fs_files w;
     fs_dirs := <[p := l]> (fs_dirs w); now_ms := now_ms w |}.

(** A host of type [ty] with the given CPUs, clock and an empty file
    system; the other [os] figures are 0. *)
Definition bare_world (ty : string) (cpus : list cpu_times) (now : Z) : world :=
  {| os_type := ty; os_cpus := cpus; os_loadavg := (of_Z 0, of_Z 0, of_Z 0);
     os_totalmem := of_Z 0; os_freemem := of_Z 0; os_uptime := of_Z 0;
     fs_files := ∅; fs_dirs := ∅; now_ms := now |}.

(** ** Reading lemmas *)

Lemma readFileSync_file (w : world) (p s : string) :
  fs_files w !! p = Some s -> readFileSync w p = Ok s.
Proof. unfold readFileSync. now intros ->. Qed.

Lemma readFileSync_missing (w : world) (p : string) :
  fs_files w !! p = None -> fs_dirs w !! p = None -> readFileSync w p = Throw (ENOENT p).
Proof. unfold readFileSync. now intros -> ->. Qed.

Lemma existsSync_file (w : world) (p s : string) :
  fs_files w !! p = Some s -> existsSync w p = true.
Proof. unfold existsSync. now intros ->. Qed.

Lemma existsSync_readable (w : world) (p s : string) :
  readFileSync w p = Ok s -> existsSync w p = true.
Proof.
  unfold readFileSync, existsSync. destruct (fs_files w !! p); [reflexivity|].
  destruct (fs_dirs w !! p); discriminate.
Qed.

Lemma existsSync_missing (w : world) (p : string) :
  fs_files w !! p = None -> fs_dirs w !! p = None -> existsSync w p = false.
Proof. unfold existsSync. now intros -> ->. Qed.

Lemma readFileSync_not_exists (w : world) (p : string) :
  existsSync w p = false -> readFileSync w p = Throw (ENOENT p).
Proof.
  unfold existsSync, readFileSync.
  destruct (fs_files w !! p), (fs_dirs w !! p); easy.
Qed.

Lemma readdirSync_dir (w : world) (p : string) (l : list string) :
  fs_dirs w !! p = Some l -> readdirSync w p = Ok l.
Proof. unfold readdirSync. now intros ->. Qed.

Lemma set_file_lookup (w : world) (p s : string) :
  fs_files (set_file p s w) !! p = Some s.
Proof. apply lookup_insert_eq. Qed.

#[export] Hint Resolve readFileSync_file existsSync_file readdirSync_dir
  set_file_lookup : agentx.
