(* ===== verification/Docker.v ===== *)
(** * Environment detector: [isInDocker] (system.js, lines 52-67)

    [isInDocker] reads [/proc/self/cgroup].  For every line that mentions
    [device] or [cpu], it reads the third colon-separated field (the cgroup
    path) and answers [true] when that path starts with [/docker/].  The
    whole loop is inside [try ... catch]: a missing file, or a matching line
    with fewer than three fields ([one[2]] is [undefined], and
    [undefined.indexOf] throws a [TypeError]), makes it answer [false]. *)

From Stdlib Require Import String Ascii List Bool ZArith Lia.
From S2P Require Import Prelude JsNum JsString Host.
Import ListNotations.
Open Scope string_scope.

Definition nl : Ascii.ascii := "010"%char.

Definition cgroup_path : string := "/proc/self/cgroup".

(** The loop of lines 55-62 over the lines of the file. *)
Fixpoint scan_cgroup (lines : list string) : res bool :=
  match lines with
  | [] => Ok false
  | l :: ls =>
      if ((0 <=? indexOf l "device")%Z || (0 <=? indexOf l "cpu")%Z)%bool then
        let one := split ":"%char l in
        match nth_error one 2 with
        | None => Throw (TypeError "Cannot read properties of undefined (reading 'indexOf')")
        | Some p => if (indexOf p "/docker/" =? 0)%Z then Ok true else scan_cgroup ls
        end
      else scan_cgroup ls
  end.

Definition isInDocker (w : world) : bool :=
  res_catch
    (let? raw := readFileSync w cgroup_path in
     scan_cgroup (split nl (trim raw)))%js
    false.

(** ** Properties *)

(** The lines the loop examines: they mention [device] or [cpu]. *)
Definition cgroup_matches (l : string) : bool :=
  ((0 <=? indexOf l "device")%Z || (0 <=? indexOf l "cpu")%Z)%bool.

(** A line that marks a container: examined, and its cgroup path (third
    colon-separated field) starts with [/docker/]. *)
Definition docker_line (l : string) : bool :=
  cgroup_matches l &&
  match nth_error (split ":"%char l) 2 with
  | Some p => prefix "/docker/" p
  | None => false
  end.

(** An examined line has a third field. *)
Definition cgroup_line_ok (l : string) : Prop :=
  cgroup_matches l = true -> (3 <= length (split ":"%char l))%nat.

Lemma scan_cgroup_wf (lines : list string) :
  Forall cgroup_line_ok lines -> scan_cgroup lines = Ok (existsb docker_line lines).
Proof.
  induction lines as [|l ls IH]; intros Hall; [reflexivity|].
  inversion_clear Hall as [|? ? Hl Hls]. cbn [scan_cgroup existsb]. unfold docker_line.
  fold (cgroup_matches l). destruct (cgroup_matches l) eqn:Em; cbn [andb orb]; [|now apply IH].
  destruct (nth_error (split ":"%char l) 2) as [p|] eqn:Ep.
  - rewrite indexOf_zero. destruct (prefix "/docker/" p); [reflexivity | now apply IH].
  - apply nth_error_None in Ep. specialize (Hl Em). lia.
Qed.

(** C17.  When every examined line has three fields, [isInDocker] is true
    exactly when some line mentions [device] or [cpu] and has a cgroup
    path starting with [/docker/].  A missing file gives false. *)
Theorem isInDocker_lines (w : world) :
  (forall raw, readFileSync w cgroup_path = Ok raw ->
     Forall cgroup_line_ok (split nl (trim raw)) ->
     isInDocker w = existsb docker_line (split nl (trim raw))) /\
  (forall e, readFileSync w cgroup_path = Throw e -> isInDocker w = false).
Proof.
  split.
  - intros raw Hr Hall. unfold isInDocker. rewrite Hr. cbn [res_bind].
    now rewrite scan_cgroup_wf.
  - intros e Hr. unfold isInDocker. now rewrite Hr.
Qed.

(** C18.  An examined line with fewer than three fields throws a
    [TypeError], which the [catch] turns into false.  Docker lines after it
    are never read. *)
Theorem isInDocker_malformed (w : world) (raw : string) (pre post : list string) (l : string) :
  readFileSync w cgroup_path = Ok raw ->
  split nl (trim raw) = app pre (l :: post) ->
  Forall cgroup_line_ok pre -> existsb docker_line pre = false ->
  cgroup_matches l = true -> (length (split ":"%char l) < 3)%nat ->
  isInDocker w = false.
Proof.
  intros Hr Hs Hpre Hno Hm Hlen. unfold isInDocker. rewrite Hr. cbn [res_bind]. rewrite Hs.
  clear Hr Hs. revert Hno. induction Hpre as [|x pre Hx Hpre IH]; intros Hno; cbn [app scan_cgroup].
  - fold (cgroup_matches l). rewrite Hm. cbn [andb orb].
    now rewrite (proj2 (nth_error_None _ 2)) by lia.
  - cbn [existsb] in Hno. apply orb_false_iff in Hno as [Hxd Hno].
    fold (cgroup_matches x). unfold docker_line in Hxd.
    destruct (cgroup_matches x) eqn:Em; cbn [andb orb]; [|exact (IH Hno)].
    destruct (nth_error (split ":"%char x) 2) as [p|] eqn:Ep.
    + rewrite indexOf_zero. cbn [andb] in Hxd. rewrite Hxd. exact (IH Hno).
    + apply nth_error_None in Ep. specialize (Hx Em). lia.
Qed.

(** ** Witnesses *)

Definition cgroup_world (content : string) : world :=
  set_file cgroup_path content (bare_world "Linux" [] 0).

Definition docker_cgroup : string :=
  line_nl "12:devices:/docker/4f2a" ++ line_nl "11:memory:/docker/4f2a" ++
  line_nl "4:cpu,cpuacct:/docker/4f2a" ++ "1:name=systemd:/docker/4f2a".

Definition host_cgroup : string :=
  line_nl "12:devices:/user.slice" ++ line_nl "4:cpu,cpuacct:/user.slice" ++ "1:name=systemd:/init.scope".

Lemma isInDocker_lines_witness :
  isInDocker (cgroup_world docker_cgroup) = true /\ isInDocker (cgroup_world host_cgroup) = false /\
  isInDocker (bare_world "Linux" [] 0) = false.
Proof.
  split; [|split].
  - rewrite (proj1 (isInDocker_lines _) docker_cgroup); [vm_compute; reflexivity..|].
    vm_compute. repeat constructor; intros _; lia.
  - rewrite (proj1 (isInDocker_lines _) host_cgroup); [vm_compute; reflexivity..|].
    vm_compute. repeat constructor; intros _; lia.
  - apply (proj2 (isInDocker_lines _) (ENOENT cgroup_path)). reflexivity.
Defined.

Lemma isInDocker_malformed_witness :
  isInDocker (cgroup_world (line_nl "3:cpu" ++ "12:devices:/docker/4f2a")) = false.
Proof.
  apply (isInDocker_malformed _ (line_nl "3:cpu" ++ "12:devices:/docker/4f2a") [] ["12:devices:/docker/4f2a"]
           "3:cpu"); try (vm_compute; reflexivity); try constructor; vm_compute; lia.
Defined.
