(* ===== verification/Quota.v ===== *)
(** * Container CPU-quota resolver: [_getDockerCPUs] (system.js, lines 73-100)

    The CPU share allotted to the container: [quota / period] from the
    cgroup v1 CPU controller, with [os.cpus().length] as the fallback when
    the host is not Linux, when a file is absent, when the quota is [-1]
    (unlimited) and when the period is not positive.  The guards are tested
    in the order of the source: the period file's existence first, then the
    quota file's; the quota is read before the period. *)

From Stdlib Require Import String Ascii List ZArith QArith Lia.
From S2P Require Import Prelude JsNum JsString Host.
Import ListNotations.
Open Scope string_scope.

Definition period_path : string := "/sys/fs/cgroup/cpu/cpu.cfs_period_us".
Definition quota_path : string := "/sys/fs/cgroup/cpu/cpu.cfs_quota_us".

Definition _getDockerCPUs (w : world) : res num :=
  let def_cpu := of_nat (length (os_cpus w)) in
  if negb (is_linux w) then Ok def_cpu
  else if negb (existsSync w period_path) then Ok def_cpu
  else if negb (existsSync w quota_path) then Ok def_cpu
  else
    (let? q := readFileSync w quota_path in
     let quota := parseInt (trim q) in
     if (quota === of_Z (-1))%num then Ok def_cpu
     else
       let? p := readFileSync w period_path in
       let period := parseInt (trim p) in
       if (period <=? of_Z 0)%num then Ok def_cpu
       else Ok (quota / period)%num)%js.

(** ** Properties *)

(** A one-line cgroup file holding the integer [z]. *)
Definition int_file (z : Z) : string := show_Z z ++ String "010" EmptyString.

Lemma parseInt_trim_int_file (z : Z) : parseInt (trim (int_file z)) = of_Z z.
Proof. apply parseInt_trim_show_Z. Qed.

(** The guards up to the quota read, on a Linux host with both files. *)
Lemma getDockerCPUs_read_quota (w : world) (qs : string) :
  is_linux w = true -> existsSync w period_path = true ->
  readFileSync w quota_path = Ok qs ->
  _getDockerCPUs w =
  (if (parseInt (trim qs) === of_Z (-1))%num then Ok (of_nat (length (os_cpus w)))
   else
     (let? p := readFileSync w period_path in
      if (parseInt (trim p) <=? of_Z 0)%num then Ok (of_nat (length (os_cpus w)))
      else Ok (parseInt (trim qs) / parseInt (trim p))%num)%js).
Proof.
  intros Hl Hp Hq. unfold _getDockerCPUs. rewrite Hl, Hp, (existsSync_readable _ _ _ Hq), Hq.
  reflexivity.
Qed.

(** C11.  On Linux, with quota [q] (not -1) and a positive period [p] in
    the cgroup files, the CPU share is exactly [q / p]. *)
Theorem getDockerCPUs_ratio (w : world) (q p : Z) :
  is_linux w = true ->
  readFileSync w quota_path = Ok (int_file q) ->
  readFileSync w period_path = Ok (int_file p) ->
  q <> (-1)%Z -> (0 < p)%Z ->
  _getDockerCPUs w = Ok (fin (inject_Z q / inject_Z p)).
Proof.
  intros Hl Hq Hp Hq1 Hp0. rewrite (getDockerCPUs_read_quota w _ Hl) by eauto using existsSync_readable.
  rewrite parseInt_trim_int_file, strict_eq_of_Z.
  rewrite (proj2 (Z.eqb_neq _ _) Hq1), Hp. cbn [res_bind].
  rewrite parseInt_trim_int_file, num_le_of_Z, (proj2 (Z.leb_gt _ _) Hp0).
  rewrite div_of_Z by lia. reflexivity.
Qed.

(** When [_getDockerCPUs] falls back to the logical CPU count. *)
Inductive quota_fallback (w : world) : Prop :=
| fb_not_linux : is_linux w = false -> quota_fallback w
| fb_no_period : existsSync w period_path = false -> quota_fallback w
| fb_no_quota : existsSync w quota_path = false -> quota_fallback w
| fb_unlimited : existsSync w period_path = true ->
    readFileSync w quota_path = Ok (int_file (-1)) -> quota_fallback w
| fb_period_nonpos (q p : Z) : q <> (-1)%Z -> (p <= 0)%Z ->
    readFileSync w quota_path = Ok (int_file q) ->
    readFileSync w period_path = Ok (int_file p) -> quota_fallback w.

(** C12.  [_getDockerCPUs] returns [os.cpus().length] off Linux, when
    either cgroup file is absent, when the quota is -1 (whatever the period
    file holds), and when the period is not positive. *)
Theorem getDockerCPUs_fallback (w : world) :
  quota_fallback w -> _getDockerCPUs w = Ok (of_nat (length (os_cpus w))).
Proof.
  intros [Hl | Hp | Hq | Hp Hq | q p Hq1 Hp0 Hq Hp].
  - unfold _getDockerCPUs. now rewrite Hl.
  - unfold _getDockerCPUs. destruct (is_linux w); [now rewrite Hp | reflexivity].
  - unfold _getDockerCPUs.
    destruct (is_linux w), (existsSync w period_path); [now rewrite Hq | reflexivity..].
  - destruct (is_linux w) eqn:Hl; [|unfold _getDockerCPUs; now rewrite Hl].
    rewrite (getDockerCPUs_read_quota w _ Hl Hp Hq).
    now rewrite parseInt_trim_int_file, strict_eq_of_Z.
  - destruct (is_linux w) eqn:Hl; [|unfold _getDockerCPUs; now rewrite Hl].
    rewrite (getDockerCPUs_read_quota w _ Hl) by eauto using existsSync_readable.
    rewrite parseInt_trim_int_file, strict_eq_of_Z.
    rewrite (proj2 (Z.eqb_neq _ _) Hq1), Hp. cbn [res_bind].
    rewrite parseInt_trim_int_file, num_le_of_Z, (proj2 (Z.leb_le _ _) Hp0). reflexivity.
Qed.

(** C13.  A quota file that [parseInt] cannot read (such as the cgroup v2
    line ["max 100000"]) does not fall back: with a positive period the
    share is [NaN]. *)
Theorem getDockerCPUs_unparsable_quota (w : world) (qs : string) (p : Z) :
  is_linux w = true ->
  readFileSync w quota_path = Ok qs -> parseInt (trim qs) = NaN ->
  readFileSync w period_path = Ok (int_file p) -> (0 < p)%Z ->
  _getDockerCPUs w = Ok NaN.
Proof.
  intros Hl Hq Hn Hp Hp0. rewrite (getDockerCPUs_read_quota w _ Hl) by eauto using existsSync_readable.
  rewrite Hn, Hp. cbn [res_bind].
  rewrite parseInt_trim_int_file, num_le_of_Z, (proj2 (Z.leb_gt _ _) Hp0). reflexivity.
Qed.

(** ** Witnesses *)

Definition quota_world (quota period : string) : world :=
  set_file quota_path quota (set_file period_path period (bare_world "Linux" [] 0)).

Lemma getDockerCPUs_ratio_witness :
  _getDockerCPUs (quota_world (int_file 150000) (int_file 100000)) = Ok (fin (3 # 2)).
Proof.
  rewrite (getDockerCPUs_ratio _ 150000 100000); try (vm_compute; reflexivity); try lia.
Defined.

Lemma getDockerCPUs_fallback_witness :
  quota_fallback (quota_world (int_file (-1)) "garbage") /\
  _getDockerCPUs (quota_world (int_file (-1)) "garbage") = Ok (of_nat 0).
Proof.
  assert (H : quota_fallback (quota_world (int_file (-1)) "garbage")).
  { apply fb_unlimited; vm_compute; reflexivity. }
  split; [exact H|]. exact (getDockerCPUs_fallback _ H).
Defined.

Lemma getDockerCPUs_unparsable_quota_witness :
  _getDockerCPUs (quota_world ("max 100000" ++ String "010" EmptyString) (int_file 100000)) =
  Ok NaN.
Proof.
  apply (getDockerCPUs_unparsable_quota _ ("max 100000" ++ String "010" EmptyString) 100000);
    try (vm_compute; reflexivity); lia.
Defined.
