(* ===== verification/Procs.v ===== *)
(** * Per-process CPU aggregator: [_isPID], [_getProcessCPU], [getAllCPU]
    (system.js, lines 102-151)

    [getAllCPU] lists [/proc], keeps the entries whose name is all decimal
    digits, and sums over them [_getProcessCPU] of [/proc/<pid>/stat]: the
    fields at offsets 13 to 16 of the space-separated line (utime, stime,
    cutime, cstime).  A stat file that vanished contributes 0 ([existsSync]
    and the [catch]); a missing field is [undefined], and [parseInt] of it
    is [NaN], which is not caught. *)

From Stdlib Require Import String Ascii List ZArith QArith Lia.
From S2P Require Import Prelude JsNum JsString Host.
Import ListNotations.
Open Scope string_scope.

(** The loop of lines 110-114: every character is one of ['0123456789']. *)
Fixpoint all_digits (s : string) : bool :=
  match s with
  | EmptyString => true
  | String c s' =>
      if (indexOf "0123456789" (String c EmptyString) <? 0)%Z then false
      else all_digits s'
  end.

(** [typeof s] is always ['string'] for an entry of [readdirSync]. *)
Definition _isPID (s : string) : bool :=
  match s with
  | EmptyString => false
  | _ => all_digits s
  end.

(** A process id as the spec states it: a non-empty name of decimal
    digits. *)
Definition pid_name (s : string) : bool :=
  negb (String.eqb s EmptyString) && all_chars is_digit s.

(** [path.join('/proc', pid, 'stat')]; a name of digits needs no
    normalisation. *)
Definition stat_path (pid : string) : string := "/proc/" ++ pid ++ "/stat".

Definition _getProcessCPU (w : world) (p : string) : num :=
  if negb (existsSync w p) then of_Z 0
  else
    res_catch
      (let? raw := readFileSync w p in
       let pstat := split " "%char (trim raw) in
       let field i := parseInt (js_str (nth_error pstat i)) in
       Ok (field 13%nat + field 14%nat + field 15%nat + field 16%nat)%num)%js
      (of_Z 0).

Definition getAllCPU (w : world) : res num :=
  (let? all := readdirSync w "/proc" in
   let processes := map stat_path (filter _isPID all) in
   Ok (fold_left (fun total p => total + _getProcessCPU w p)%num processes (of_Z 0)))%js.

(** ** [/proc/<pid>/stat] files built from counters

    The kernel writes one line: the pid, the command name in parentheses,
    eleven fields (state to cmajflt, offsets 2-12), then utime, stime,
    cutime and cstime (offsets 13-16), then more fields, and a newline. *)

Record proc_stat := {
  ps_pid : nat;
  ps_comm : string;
  ps_mid : list string;
  ps_utime : nat; ps_stime : nat; ps_cutime : nat; ps_cstime : nat;
  ps_tail : list string
}.

Definition ps_fields (ps : proc_stat) : list string :=
  show_nat (ps_pid ps) :: ps_comm ps :: ps_mid ps ++
  map show_nat [ps_utime ps; ps_stime ps; ps_cutime ps; ps_cstime ps] ++ ps_tail ps.

Definition ps_file (ps : proc_stat) : string :=
  join " "%char (ps_fields ps) ++ String "010" EmptyString.

Definition ps_ticks (ps : proc_stat) : nat :=
  ps_utime ps + ps_stime ps + ps_cutime ps + ps_cstime ps.

(** Eleven middle fields, and every field non-empty without whitespace (a
    command name without spaces). *)
Definition ps_wf (ps : proc_stat) : Prop :=
  length (ps_mid ps) = 11%nat /\
  Forall (fun f => field_ok f = true) (ps_comm ps :: ps_mid ps ++ ps_tail ps).

Lemma ps_fields_ok (ps : proc_stat) :
  ps_wf ps -> Forall (fun f => field_ok f = true) (ps_fields ps).
Proof.
  intros [_ Hall]. inversion_clear Hall as [|? ? Hc Hrest].
  apply Forall_app in Hrest as [Hmid Htail].
  unfold ps_fields. constructor; [apply field_ok_show_nat|]. constructor; [exact Hc|].
  apply Forall_app. split; [exact Hmid|]. apply Forall_app. split; [|exact Htail].
  repeat constructor; apply field_ok_show_nat.
Qed.

Lemma split_ps_file (ps : proc_stat) :
  ps_wf ps -> split " "%char (trim (ps_file ps)) = ps_fields ps.
Proof. intros Hwf. apply split_trim_join_line; [discriminate | now apply ps_fields_ok]. Qed.

(** The fields at offsets 13 to 16 of a list whose offsets 2 to 12 are
    [mid]. *)
Lemma nth_error_after_mid (a b : string) (mid rest : list string) (k : nat) :
  length mid = 11%nat -> nth_error (a :: b :: mid ++ rest) (13 + k) = nth_error rest k.
Proof.
  intros Hm. change (nth_error (a :: b :: mid ++ rest) (13 + k)) with (nth_error (mid ++ rest) (11 + k)).
  rewrite nth_error_app2 by lia. f_equal. lia.
Qed.

Lemma getProcessCPU_throw (w : world) (p : string) (e : exn) :
  readFileSync w p = Throw e -> _getProcessCPU w p = of_Z 0.
Proof. intros H. unfold _getProcessCPU. destruct (existsSync w p); [cbn; now rewrite H | reflexivity]. Qed.

(** The four counters of a well-formed stat file. *)
Lemma getProcessCPU_ticks (w : world) (p : string) (ps : proc_stat) :
  readFileSync w p = Ok (ps_file ps) -> ps_wf ps -> _getProcessCPU w p = of_nat (ps_ticks ps).
Proof.
  intros Hr Hwf. unfold _getProcessCPU. rewrite (existsSync_readable _ _ _ Hr). cbn [negb].
  rewrite Hr. cbn [res_bind res_catch]. rewrite split_ps_file by exact Hwf. unfold ps_fields.
  destruct Hwf as [Hm _].
  rewrite !(nth_error_after_mid _ _ _ _ 0 Hm), !(nth_error_after_mid _ _ _ _ 1 Hm),
    !(nth_error_after_mid _ _ _ _ 2 Hm), !(nth_error_after_mid _ _ _ _ 3 Hm).
  cbn [map app nth_error js_str]. rewrite !parseInt_show_nat, !add_of_nat. reflexivity.
Qed.

(** The test of line 111 on one character is [is_digit]. *)
Lemma indexOf_digit (c : ascii) :
  (indexOf "0123456789" (String c EmptyString) <? 0)%Z = negb (is_digit c).
Proof. destruct c as [[] [] [] [] [] [] [] []]; vm_compute; reflexivity. Qed.

Lemma all_digits_chars (s : string) : all_digits s = all_chars is_digit s.
Proof.
  induction s as [|c s IH]; [reflexivity|]. cbn [all_digits all_chars].
  rewrite indexOf_digit, IH. now destruct (is_digit c).
Qed.

(** [_isPID] accepts exactly the process ids. *)
Lemma isPID_pid_name (s : string) : _isPID s = pid_name s.
Proof. destruct s as [|c s]; [reflexivity|]. unfold _isPID, pid_name. now rewrite all_digits_chars. Qed.

(** What one entry of [/proc] contributes: 0 when its stat file cannot be
    read (the process exited after [readdirSync]), its four counters when
    the file is well formed. *)
Definition proc_entry_ticks (w : world) (pid : string) (n : nat) : Prop :=
  ((exists e, readFileSync w (stat_path pid) = Throw e) /\ n = 0%nat) \/
  (exists ps, readFileSync w (stat_path pid) = Ok (ps_file ps) /\ ps_wf ps /\ n = ps_ticks ps).

(** C14.  [getAllCPU] is the sum, over the entries of [/proc] whose name
    is all digits, of utime + stime + cutime + cstime.  Other entries are
    skipped, and a process whose stat file vanished contributes 0. *)
Theorem getAllCPU_sum (w : world) (entries : list string) (ticks : string -> nat) :
  readdirSync w "/proc" = Ok entries ->
  (forall pid, In pid (filter pid_name entries) -> proc_entry_ticks w pid (ticks pid)) ->
  getAllCPU w = Ok (of_nat (list_sum (map ticks (filter pid_name entries)))).
Proof.
  intros Hd Hall. unfold getAllCPU. rewrite Hd. cbn [res_bind]. f_equal.
  rewrite (filter_ext _isPID pid_name isPID_pid_name) in *.
  rewrite fold_left_map_fn, of_Z_0_of_nat.
  apply (fold_add_of_nat (fun x => _getProcessCPU w (stat_path x)) ticks _ 0).
  intros pid Hin. destruct (Hall pid Hin) as [[[e He] ->] | (ps & Hr & Hwf & ->)].
  - now apply getProcessCPU_throw with e.
  - now apply getProcessCPU_ticks.
Qed.

(** C15.  A stat file with fewer than 17 fields makes the whole sum [NaN]:
    [pstat[16]] is [undefined], [parseInt] of it is [NaN], and nothing
    catches it.  The spec (4.3) says a parse failure contributes zero for
    that process only. *)
Theorem getAllCPU_short_stat (w : world) (entries : list string) (pid raw : string) :
  readdirSync w "/proc" = Ok entries -> In pid entries -> _isPID pid = true ->
  readFileSync w (stat_path pid) = Ok raw ->
  (length (split " "%char (trim raw)) <= 16)%nat ->
  getAllCPU w = Ok NaN.
Proof.
  intros Hd Hin Hpid Hr Hlen. unfold getAllCPU. rewrite Hd. cbn [res_bind]. f_equal.
  rewrite fold_left_map_fn. apply (fold_add_NaN _ _ pid); [now apply filter_In|].
  unfold _getProcessCPU. rewrite (existsSync_readable _ _ _ Hr), Hr. cbn [negb res_bind res_catch].
  rewrite (proj2 (nth_error_None _ 16) Hlen). apply add_NaN_r.
Qed.

(** C16.  A command name with one space, such as ["(my app)"], is split
    into two fields, which moves every later field by one.  The code then
    sums cmajflt + utime + stime + cutime and drops cstime. *)
Theorem getProcessCPU_comm_space (w : world) (p : string) (ps : proc_stat) (a b : string)
    (cmajflt : nat) :
  readFileSync w p = Ok (ps_file ps) ->
  ps_comm ps = ("(" ++ a) ++ String " " (b ++ ")") ->
  field_ok ("(" ++ a) = true -> field_ok (b ++ ")") = true ->
  length (ps_mid ps) = 11%nat -> Forall (fun f => field_ok f = true) (ps_mid ps ++ ps_tail ps) ->
  nth_error (ps_mid ps) 10 = Some (show_nat cmajflt) ->
  _getProcessCPU w p = of_nat (cmajflt + ps_utime ps + ps_stime ps + ps_cutime ps).
Proof.
  intros Hr Hc Ha Hb Hm Hall Hmaj.
  set (rest := app (map show_nat [ps_utime ps; ps_stime ps; ps_cutime ps; ps_cstime ps]) (ps_tail ps)).
  set (F := show_nat (ps_pid ps) :: append "(" a :: append b ")" :: app (ps_mid ps) rest).
  assert (Hmid : app (ps_mid ps) rest <> []) by (destruct (ps_mid ps); [discriminate|intros; discriminate]).
  assert (Hfile : ps_file ps = (join " "%char F ++ String "010" EmptyString)%string).
  { unfold ps_file, ps_fields, F. fold rest. rewrite Hc.
    rewrite (join_cons _ (show_nat _)), (join_cons _ (("(" ++ a) ++ _)) by (auto || discriminate).
    rewrite (join_cons _ (show_nat _)), (join_cons _ ("(" ++ a)), (join_cons _ (b ++ ")"))
      by (auto || discriminate).
    now rewrite <- (append_assoc_str ("(" ++ a)). }
  assert (Hok : Forall (fun f => field_ok f = true) F).
  { unfold F, rest. apply Forall_app in Hall as [Hmids Htail].
    constructor; [apply field_ok_show_nat|]. constructor; [exact Ha|]. constructor; [exact Hb|].
    apply Forall_app. split; [exact Hmids|]. apply Forall_app. split; [|exact Htail].
    repeat constructor; apply field_ok_show_nat. }
  unfold _getProcessCPU. rewrite (existsSync_readable _ _ _ Hr), Hr. cbn [negb res_bind res_catch].
  rewrite Hfile, split_trim_join_line by (discriminate || exact Hok). unfold F.
  change (nth_error (?x0 :: ?x1 :: ?x2 :: ?L) (S (S (S ?k)))) with (nth_error L k).
  rewrite nth_error_app1 by lia. rewrite Hmaj, !nth_error_app2 by lia. rewrite Hm.
  unfold rest. cbn [Nat.sub map app nth_error js_str].
  now rewrite !parseInt_show_nat, !add_of_nat.
Qed.

(** ** Witnesses *)

Definition ps_init : proc_stat :=
  {| ps_pid := 1; ps_comm := "(init)";
     ps_mid := ["S"; "0"; "1"; "1"; "0"; "-1"; "4194560"; "100"; "0"; "0"; "0"];
     ps_utime := 30; ps_stime := 20; ps_cutime := 5; ps_cstime := 5; ps_tail := ["20"; "0"] |}.

Definition ps_node : proc_stat :=
  {| ps_pid := 42; ps_comm := "(node)";
     ps_mid := ["R"; "1"; "42"; "42"; "0"; "-1"; "4194560"; "900"; "0"; "2"; "0"];
     ps_utime := 100; ps_stime := 50; ps_cutime := 0; ps_cstime := 0; ps_tail := ["20"; "0"] |}.

Definition ps_my_app : proc_stat :=
  {| ps_pid := 8; ps_comm := ("(" ++ "my") ++ String " " ("app" ++ ")");
     ps_mid := ["S"; "1"; "8"; "8"; "0"; "-1"; "4194560"; "100"; "0"; "0"; "3"];
     ps_utime := 30; ps_stime := 20; ps_cutime := 5; ps_cstime := 5; ps_tail := ["20"; "0"] |}.

(** [/proc] with two live processes, one that exited after the listing
    (99), a process with a space in its name (8), a zombie whose stat line
    is short (7), and two entries that are not processes. *)
Definition procs_world (with_zombie : bool) : world :=
  set_dir "/proc" (["1"; "self"; "42"; "99"; "net"] ++ (if with_zombie then ["7"] else []))
  (set_file "/proc/1/stat" (line_nl "1 (init) S 0 1 1 0 -1 4194560 100 0 0 0 30 20 5 5 20 0")
  (set_file "/proc/42/stat" (line_nl "42 (node) R 1 42 42 0 -1 4194560 900 0 2 0 100 50 0 0 20 0")
  (set_file "/proc/8/stat" (line_nl "8 (my app) S 1 8 8 0 -1 4194560 100 0 0 3 30 20 5 5 20 0")
  (set_file "/proc/7/stat" (line_nl "7 (zombie) Z")
  (bare_world "Linux" [] 0))))).

Definition procs_ticks (pid : string) : nat :=
  if String.eqb pid "1" then 60 else if String.eqb pid "42" then 150 else 0.

Lemma getAllCPU_sum_witness :
  getAllCPU (procs_world false) = Ok (of_nat 210).
Proof.
  apply (getAllCPU_sum _ ["1"; "self"; "42"; "99"; "net"] procs_ticks); [reflexivity|].
  intros pid Hin. cbn in Hin. repeat destruct Hin as [<- | Hin]; try contradiction.
  - right. exists ps_init. split; [vm_compute; reflexivity|].
    split; [split; [reflexivity | repeat constructor] | reflexivity].
  - right. exists ps_node. split; [vm_compute; reflexivity|].
    split; [split; [reflexivity | repeat constructor] | reflexivity].
  - left. split; [eexists; vm_compute; reflexivity | reflexivity].
Defined.

Lemma getAllCPU_short_stat_witness : getAllCPU (procs_world true) = Ok NaN.
Proof.
  apply (getAllCPU_short_stat _ (["1"; "self"; "42"; "99"; "net"] ++ ["7"]) "7"
           (line_nl "7 (zombie) Z"));
    first [vm_compute; reflexivity | cbn; tauto | vm_compute; lia].
Defined.

Lemma getProcessCPU_comm_space_witness :
  _getProcessCPU (procs_world false) "/proc/8/stat" = of_nat 58 /\ ps_ticks ps_my_app = 60%nat.
Proof.
  split; [|reflexivity].
  apply (getProcessCPU_comm_space _ _ ps_my_app "my" "app" 3); try (vm_compute; reflexivity).
  repeat constructor.
Defined.
