(* ===== verification/Cpu.v ===== *)
(** * CPU utilisation estimator (system.js, lines 7-8, 21-49, 153-203)

    The stateful core.  The module keeps four variables: [lastTotal] and
    [lastIdle], shared by the Linux-host path ([calculateLinuxCPU]) and the
    generic path ([calculateCPU]); [last_used] and [last_sys], used by the
    docker path.  [getSystemCPU] picks the path on every call.  Each path
    reads a cumulative sample, takes its difference with the stored one,
    stores the new sample, and returns [1 - diffIdle / diffTotal] (host) or
    [diff_used / diff_sys / share] (docker).  [init_state] is the module's
    initialisation, run once when the file is loaded.

    The section [DeltaTheory] states what a host path promises: a step, the
    readings it takes, and its contract [step_law].  It proves the client
    theorems against that contract: successive samples, and runs that refine
    the abstract estimator [delta_spec].  [calculateLinuxCPU_law],
    [calculateCPU_law] and [getSystemCPU_law] discharge the contract for
    the two host paths and for the dispatcher outside docker.

    [comment_total] and [comment_out] model the comment of lines 10-20,
    whose Total counts steal twice; [getSystemCPU_steal_comment] states
    when the code's fraction differs from it. *)

From Stdlib Require Import String Ascii List ZArith QArith Lqa Lia.
From S2P Require Import Prelude JsNum JsString Host Docker Quota Procs.
Import ListNotations.
Open Scope nat_scope.
Open Scope string_scope.

(** ** The module-level variables *)

Record cpu_state := {
  lastTotal : num;
  lastIdle : num;
  last_used : num;
  last_sys : num
}.

(** [lastTotal = total; lastIdle = idle;] *)
Definition set_host_sample (total idle : num) (s : cpu_state) : cpu_state :=
  {| lastTotal := total; lastIdle := idle;
     last_used := last_used s; last_sys := last_sys s |}.

(** [last_used = now_used; last_sys = now_sys;] *)
Definition set_docker_sample (used sys : num) (s : cpu_state) : cpu_state :=
  {| lastTotal := lastTotal s; lastIdle := lastIdle s;
     last_used := used; last_sys := sys |}.

(** Lines 7-8 and 153-154, run when the module is loaded.  Line 154 tests
    the function [isInDocker], not its result: a function is truthy, so
    [last_sys] is always the load time. *)
Definition init_state (w : world) : res cpu_state :=
  (let? lu := (if isInDocker w then getAllCPU w else Ok (of_Z 0)) in
   Ok {| lastTotal := of_Z 0; lastIdle := of_Z 0;
         last_used := lu; last_sys := of_Z (now_ms w) |})%js.

(** ** Linux host: [calculateLinuxCPU] (lines 21-49) *)

(** The first line of the trimmed file that contains ["cpu "]. *)
Definition stat_line_of (raw : string) : option string :=
  find (fun l => (0 <=? indexOf l "cpu ")%Z) (split nl (trim raw)).

(** [var total = 0; for (j = 0; j < n; j++) total += field(j);] *)
Definition sum_fields (field : nat -> num) (n : nat) : num :=
  fold_left (fun total j => total + field j)%num (seq 0 n) (of_Z 0).

(** [fs.readFileSync('/proc/stat')] returns a Buffer, which is always
    truthy: the guard [if (!raw) return 0;] of line 23 never returns. *)
Definition calculateLinuxCPU (w : world) : M cpu_state num :=
  (raw <- lift (readFileSync w "/proc/stat") ;;
   match stat_line_of raw with
   | None => ret (of_Z 0)
   | Some line =>
       let stat := skipn 2 (split " "%char line) in
       let field j := parseInt (js_str (nth_error stat j)) in
       let idle := (field 3%nat + field 4%nat + field 7%nat)%num in
       let total := sum_fields field 8 in
       s <- get ;;
       let diffTotal := (total - lastTotal s)%num in
       let diffIdle := (idle - lastIdle s)%num in
       put (set_host_sample total idle s) ;;
       ret (of_Z 1 - diffIdle / diffTotal)%num
   end)%js.

(** ** Any host: [calculateCPU] (lines 169-185) *)

(** The loop of lines 173-177 over [os.cpus()]. *)
Definition cpu_totals (cpus : list cpu_times) : num * num :=
  fold_left
    (fun '(total, idl) time =>
       ((total + (of_nat (user time) + of_nat (nice time) + of_nat (sys time)
                  + of_nat (idle time)))%num,
        (idl + of_nat (idle time))%num))
    cpus (of_Z 0, of_Z 0).

Definition calculateCPU (w : world) : M cpu_state num :=
  let '(total, idl) := cpu_totals (os_cpus w) in
  (s <- get ;;
   let diffTotal := (total - lastTotal s)%num in
   let diffIdle := (idl - lastIdle s)%num in
   put (set_host_sample total idl s) ;;
   ret (of_Z 1 - diffIdle / diffTotal)%num)%js.

(** ** Docker: [calculateDockerCPU] (lines 156-166), and the copy of its
    body inside [getSystemCPU] (lines 187-203) *)

(** The state is written before [_getDockerCPUs] runs, so a throw there
    keeps the new sample. *)
Definition calculateDockerCPU (w : world) : M cpu_state num :=
  (now_used <- lift (getAllCPU w) ;;
   let now_sys := of_Z (now_ms w) in
   s <- get ;;
   let diff_used := ((now_used - last_used s) * of_Z 10)%num in
   let diff_sys := (now_sys - last_sys s)%num in
   put (set_docker_sample now_used now_sys s) ;;
   share <- lift (_getDockerCPUs w) ;;
   ret (diff_used / diff_sys / share)%num)%js.

Definition getSystemCPU (w : world) : M cpu_state num :=
  if isInDocker w then
    (now_used <- lift (getAllCPU w) ;;
     let now_sys := of_Z (now_ms w) in
     s <- get ;;
     let diff_used := ((now_used - last_used s) * of_Z 10)%num in
     let diff_sys := (now_sys - last_sys s)%num in
     put (set_docker_sample now_used now_sys s) ;;
     share <- lift (_getDockerCPUs w) ;;
     ret (diff_used / diff_sys / share)%num)%js
  else if is_linux w then calculateLinuxCPU w
  else calculateCPU w.

(** ** [/proc/stat] lines built from counters

    The aggregate line of [/proc/stat], as the kernel writes it: ["cpu"],
    two spaces, then ten counters separated by one space. *)

Record breakdown := {
  b_user : nat; b_nice : nat; b_system : nat; b_idle : nat; b_iowait : nat;
  b_irq : nat; b_softirq : nat; b_steal : nat; b_guest : nat; b_guest_nice : nat
}.

Definition bd_fields (b : breakdown) : list nat :=
  [b_user b; b_nice b; b_system b; b_idle b; b_iowait b; b_irq b; b_softirq b;
   b_steal b; b_guest b; b_guest_nice b].

Definition cpu_line (b : breakdown) : string :=
  "cpu  " ++ join " "%char (map show_nat (bd_fields b)).

(** The two sums the code computes, on the counters. *)
Definition bd_total (b : breakdown) : nat :=
  b_user b + b_nice b + b_system b + b_idle b + b_iowait b + b_irq b
  + b_softirq b + b_steal b.

Definition bd_idle (b : breakdown) : nat := b_idle b + b_iowait b + b_steal b.

(** The counters of the comment of lines 10-20 ("Idle = idle + iowait +
    steal, NonIdle = user + nice + system + irq + softirq + steal, Total =
    Idle + NonIdle, cpu% = 1 - diffIdle / diffTotal").  The comment counts
    steal in both Idle and NonIdle; the loop of lines 38-40 counts it once. *)
Definition comment_idle (b : breakdown) : nat := b_idle b + b_iowait b + b_steal b.

Definition comment_nonidle (b : breakdown) : nat :=
  b_user b + b_nice b + b_system b + b_irq b + b_softirq b + b_steal b.

Definition comment_total (b : breakdown) : nat := comment_idle b + comment_nonidle b.

(** The fraction the comment describes between two readings. *)
Definition comment_out (b1 b2 : breakdown) : Q :=
  (1 - (qn (comment_idle b2) - qn (comment_idle b1)) /
       (qn (comment_total b2) - qn (comment_total b1)))%Q.

(** Splitting the line on spaces and dropping two elements leaves the
    rendered counters. *)
Lemma cpu_line_fields (b : breakdown) :
  skipn 2 (split " "%char (cpu_line b)) = map show_nat (bd_fields b).
Proof.
  unfold cpu_line.
  change ("cpu  " ++ ?x) with ("cpu" ++ String " "%char ("" ++ String " "%char x)).
  rewrite split_app_sep by reflexivity. rewrite split_app_sep by reflexivity.
  cbn [skipn]. apply split_join; [discriminate|].
  apply Forall_map, Forall_forall. intros n _. now apply no_char_show_nat.
Qed.

Lemma linux_sample (b : breakdown) :
  let stat := skipn 2 (split " "%char (cpu_line b)) in
  let field j := parseInt (js_str (nth_error stat j)) in
  (field 3%nat + field 4%nat + field 7%nat)%num = of_nat (bd_idle b) /\
  sum_fields field 8 = of_nat (bd_total b).
Proof.
  cbv zeta. rewrite cpu_line_fields. unfold sum_fields, bd_idle, bd_total.
  cbn [bd_fields map nth_error js_str seq fold_left].
  rewrite !parseInt_show_nat, of_Z_0_of_nat, !add_of_nat. split; reflexivity.
Qed.

(** ** What a host path promises

    A host path reads cumulative counters [(total, idle)] and returns
    [1 - (idle - lastIdle) / (total - lastTotal)]; it replaces the stored
    pair and keeps the docker variables.  [delta_out] is that output. *)

Definition delta_out (lt li : num) (t i : nat) : num :=
  (of_Z 1 - (of_nat i - li) / (of_nat t - lt))%num.

(** ** The Linux path meets it *)

(** [w] holds a [/proc/stat] whose first line with ["cpu "] renders [b]. *)
Definition linux_stat (w : world) (b : breakdown) : Prop :=
  exists raw, readFileSync w "/proc/stat" = Ok raw /\ stat_line_of raw = Some (cpu_line b).

Lemma calculateLinuxCPU_law (w : world) (b : breakdown) (s : cpu_state) :
  linux_stat w b ->
  calculateLinuxCPU w s =
  (Ok (delta_out (lastTotal s) (lastIdle s) (bd_total b) (bd_idle b)),
   set_host_sample (of_nat (bd_total b)) (of_nat (bd_idle b)) s).
Proof.
  intros (raw & Hr & Hl). unfold calculateLinuxCPU. rewrite Hr. run_js.
  rewrite Hl. destruct (linux_sample b) as [Hi Ht]. cbv zeta in *.
  rewrite Hi, Ht. reflexivity.
Qed.

(** ** The generic path meets it *)

Definition cpus_total (cpus : list cpu_times) : nat :=
  list_sum (map (fun t => user t + nice t + sys t + idle t) cpus).

Definition cpus_idle (cpus : list cpu_times) : nat := list_sum (map idle cpus).

Lemma cpu_totals_acc (cpus : list cpu_times) (a b : nat) :
  fold_left
    (fun '(total, idl) time =>
       ((total + (of_nat (user time) + of_nat (nice time) + of_nat (sys time)
                  + of_nat (idle time)))%num,
        (idl + of_nat (idle time))%num))
    cpus (of_nat a, of_nat b) =
  (of_nat (a + cpus_total cpus), of_nat (b + cpus_idle cpus)).
Proof.
  revert a b. induction cpus as [|t cpus IH]; intros a b; cbn [fold_left].
  - unfold cpus_total, cpus_idle. cbn. now rewrite !Nat.add_0_r.
  - rewrite !add_of_nat, IH. unfold cpus_total, cpus_idle. cbn [map]. rewrite !list_sum_cons.
    f_equal; f_equal; lia.
Qed.

Lemma cpu_totals_spec (cpus : list cpu_times) :
  cpu_totals cpus = (of_nat (cpus_total cpus), of_nat (cpus_idle cpus)).
Proof. unfold cpu_totals. rewrite of_Z_0_of_nat. apply cpu_totals_acc. Qed.

Lemma calculateCPU_law (w : world) (s : cpu_state) :
  calculateCPU w s =
  (Ok (delta_out (lastTotal s) (lastIdle s) (cpus_total (os_cpus w)) (cpus_idle (os_cpus w))),
   set_host_sample (of_nat (cpus_total (os_cpus w))) (of_nat (cpus_idle (os_cpus w))) s).
Proof. unfold calculateCPU. now rewrite cpu_totals_spec. Qed.

(** ** Arithmetic of one output *)

(** Between two distinct totals the output is the finite value
    [1 - (i2 - i1) / (t2 - t1)]. *)
Lemma delta_out_fin (t1 i1 t2 i2 : nat) :
  t1 <> t2 ->
  delta_out (of_nat t1) (of_nat i1) t2 i2 =
  fin (1 - (qn i2 - qn i1) / (qn t2 - qn t1))%Q.
Proof.
  intros Ht. unfold delta_out. rewrite !sub_of_nat, div_fin.
  - rewrite of_Z_fin, sub_fin. reflexivity.
  - intros E. apply (qn_neq t2 t1); [lia|]. lra.
Qed.

(** With an unchanged total the output is [NaN], or an infinity when the
    idle counter moved. *)
Lemma delta_out_stalled (t i1 i2 : nat) :
  delta_out (of_nat t) (of_nat i1) t i2 =
  (if Nat.eqb i1 i2 then NaN else if Nat.ltb i1 i2 then NegInf else PosInf).
Proof.
  unfold delta_out. rewrite !sub_of_nat, div_fin_zero by lra.
  destruct (Nat.eqb_spec i1 i2) as [->|Hne].
  - rewrite (proj2 (Qeq_bool_iff _ _)) by lra. reflexivity.
  - rewrite Qeq_bool_false.
    2: { intros E. apply (qn_neq i2 i1); [lia|]. lra. }
    destruct (Nat.ltb_spec i1 i2) as [Hlt|Hge].
    + pose proof (qn_lt _ _ Hlt). rewrite Qpos_bool_true by lra. reflexivity.
    + assert (qn i2 < qn i1)%Q by (apply qn_lt; lia).
      rewrite Qpos_bool_false by lra. reflexivity.
Qed.

(** Over an interval where the idle counter grows by at most what the
    total grows, the output lies in [0, 1]. *)
Lemma delta_out_unit (t1 i1 t2 i2 : nat) :
  t1 < t2 -> i1 <= i2 -> i2 + t1 <= i1 + t2 ->
  exists q, delta_out (of_nat t1) (of_nat i1) t2 i2 = fin q /\ (0 <= q <= 1)%Q.
Proof.
  intros Ht Hi Hb. rewrite delta_out_fin by lia. eexists; split; [reflexivity|].
  pose proof (qn_le _ _ Hi). pose proof (qn_lt _ _ Ht).
  pose proof (qn_le _ _ Hb) as Hb'. rewrite !qn_add in Hb'.
  destruct (Qdiv_unit (qn i2 - qn i1) (qn t2 - qn t1)) as [Hlo Hhi]; try lra.
Qed.

Lemma last_default_irrel {A} (a d d' : A) (l : list A) :
  last (a :: l) d = last (a :: l) d'.
Proof. revert a. induction l as [|b l IH]; intros a; [reflexivity|]. apply IH. Qed.

Lemma last_cons_default {A} (x d : A) (l : list A) : last (x :: l) d = last l x.
Proof.
  destruct l as [|a l]; [reflexivity|].
  change (last (a :: l) d = last (a :: l) x). apply last_default_irrel.
Qed.

(** ** Client theorems, against any host path *)

Section DeltaTheory.
(** A host path: [step] runs it, [reads w t i] says that it reads the
    counters [(t, i)] in [w], and [step_law] is its contract. *)
Variable reads : world -> nat -> nat -> Prop.
Variable step : world -> M cpu_state num.
Hypothesis step_law : forall w t i s, reads w t i ->
  step w s =
  (Ok (delta_out (lastTotal s) (lastIdle s) t i), set_host_sample (of_nat t) (of_nat i) s).

(** Successive calls, threading the module state. *)
Fixpoint de_run (ws : list world) (s : cpu_state) : list (res num) * cpu_state :=
  match ws with
  | [] => ([], s)
  | w :: ws' =>
      let '(r, s1) := step w s in
      let '(rs, s2) := de_run ws' s1 in
      (r :: rs, s2)
  end.

(** The abstract estimator: each output compares a reading with the one
    before it. *)
Fixpoint delta_spec (t i : nat) (rs : list (nat * nat)) : list num :=
  match rs with
  | [] => []
  | (t', i') :: rs' => delta_out (of_nat t) (of_nat i) t' i' :: delta_spec t' i' rs'
  end.

Lemma de_two_samples w1 w2 t1 i1 t2 i2 s :
  reads w1 t1 i1 -> reads w2 t2 i2 ->
  step w2 (snd (step w1 s)) =
  (Ok (delta_out (of_nat t1) (of_nat i1) t2 i2),
   set_host_sample (of_nat t2) (of_nat i2) s).
Proof.
  intros H1 H2. rewrite (step_law _ _ _ s H1). cbn [snd].
  rewrite (step_law _ _ _ _ H2). reflexivity.
Qed.

(** A run refines the abstract estimator: the outputs are [delta_spec]
    of the readings, and the stored pair is the last reading. *)
Lemma de_run_refines ws rs t i s :
  Forall2 (fun w '(t', i') => reads w t' i') ws rs ->
  lastTotal s = of_nat t -> lastIdle s = of_nat i ->
  de_run ws s =
  (map Ok (delta_spec t i rs),
   set_host_sample (of_nat (fst (last rs (t, i)))) (of_nat (snd (last rs (t, i)))) s).
Proof.
  intros HF. revert t i s.
  induction HF as [|w [t' i'] ws rs Hw HF IH]; intros t i s Ht Hi.
  - destruct s; cbn in *; subst; reflexivity.
  - cbn [de_run]. rewrite (step_law _ _ _ s Hw), Ht, Hi.
    rewrite (IH t' i') by reflexivity. rewrite last_cons_default. reflexivity.
Qed.
End DeltaTheory.

(** ** [getSystemCPU] on a host outside docker *)

(** The reading [getSystemCPU] takes outside docker: [/proc/stat] on Linux,
    [os.cpus()] elsewhere. *)
Definition host_reads (w : world) (t i : nat) : Prop :=
  isInDocker w = false /\
  ((is_linux w = true /\ exists b, linux_stat w b /\ t = bd_total b /\ i = bd_idle b) \/
   (is_linux w = false /\ t = cpus_total (os_cpus w) /\ i = cpus_idle (os_cpus w))).

Lemma getSystemCPU_law (w : world) (t i : nat) (s : cpu_state) :
  host_reads w t i ->
  getSystemCPU w s =
  (Ok (delta_out (lastTotal s) (lastIdle s) t i), set_host_sample (of_nat t) (of_nat i) s).
Proof.
  intros [Hd [[Hl H] | [Hl [-> ->]]]]; unfold getSystemCPU; rewrite Hd, Hl.
  - destruct H as (b & Hb & -> & ->). now apply calculateLinuxCPU_law.
  - apply calculateCPU_law.
Qed.

Lemma init_state_host_sample (w0 : world) (s0 : cpu_state) :
  init_state w0 = Ok s0 -> lastTotal s0 = of_nat 0 /\ lastIdle s0 = of_nat 0.
Proof.
  unfold init_state. destruct (isInDocker w0); [destruct (getAllCPU w0)|];
    cbn; intros H; try discriminate; injection H as <-; split; reflexivity.
Qed.

Lemma getSystemCPU_two_samples w1 w2 t1 i1 t2 i2 s :
  host_reads w1 t1 i1 -> host_reads w2 t2 i2 ->
  getSystemCPU w2 (snd (getSystemCPU w1 s)) =
  (Ok (delta_out (of_nat t1) (of_nat i1) t2 i2),
   set_host_sample (of_nat t2) (of_nat i2) s).
Proof. exact (de_two_samples host_reads getSystemCPU getSystemCPU_law w1 w2 t1 i1 t2 i2 s). Qed.

(** ** Concrete hosts *)

Definition stat_text (line : string) : string := line ++ String nl "intr 0".

(** A Linux host outside docker whose [/proc/stat] starts with [line]. *)
Definition linux_world (line : string) (now : Z) : world :=
  set_file "/proc/stat" (stat_text line) (bare_world "Linux" [] now).

Definition bd_of (l : list nat) : breakdown :=
  {| b_user := nth 0 l 0; b_nice := nth 1 l 0; b_system := nth 2 l 0;
     b_idle := nth 3 l 0; b_iowait := nth 4 l 0; b_irq := nth 5 l 0;
     b_softirq := nth 6 l 0; b_steal := nth 7 l 0; b_guest := nth 8 l 0;
     b_guest_nice := nth 9 l 0 |}.

(** A concrete Linux host reads the counters of its [/proc/stat]. *)
Lemma linux_world_reads (line : string) (now : Z) (l : list nat) :
  isInDocker (linux_world line now) = false ->
  stat_line_of (stat_text line) = Some (cpu_line (bd_of l)) ->
  host_reads (linux_world line now) (bd_total (bd_of l)) (bd_idle (bd_of l)).
Proof.
  intros Hd Hl. split; [exact Hd|]. left. split; [reflexivity|].
  exists (bd_of l). split; [|split; reflexivity].
  exists (stat_text line). split; [|exact Hl].
  apply readFileSync_file, set_file_lookup.
Qed.

Ltac host_reads_tac :=
  apply linux_world_reads; vm_compute; reflexivity.

(** ** Properties of [getSystemCPU] outside docker *)

(** C1.  Outside docker, the calls of [getSystemCPU] made after the module
    loads implement the abstract delta estimator.  The k-th output is
    [1 - (idle_k - idle_(k-1)) / (total_k - total_(k-1))], with the first
    reading compared against (0, 0).  The stored pair is the last reading,
    and the docker variables are unchanged.  On Linux the total is the
    code's [bd_total], which counts steal once; the comment of lines 14-16
    counts it twice, and C8 characterises when the two disagree. *)
Theorem getSystemCPU_refines (w0 : world) (s0 : cpu_state) (ws : list world)
    (rs : list (nat * nat)) :
  init_state w0 = Ok s0 ->
  Forall2 (fun w '(t, i) => host_reads w t i) ws rs ->
  de_run getSystemCPU ws s0 =
  (map Ok (delta_spec 0 0 rs),
   set_host_sample (of_nat (fst (last rs (0, 0)))) (of_nat (snd (last rs (0, 0)))) s0).
Proof.
  intros Hinit HF. destruct (init_state_host_sample _ _ Hinit) as [Ht Hi].
  exact (de_run_refines host_reads getSystemCPU getSystemCPU_law ws rs 0 0 s0 HF Ht Hi).
Qed.

(** C2.  Two successive calls outside docker, whose totals differ: the
    second returns the finite value [1 - Δidle / Δtotal] of the two
    readings, whatever the state before them.  Δtotal is the code's, with
    steal counted once: when steal and idle both move, the comment's
    formula gives another value (C8). *)
Theorem getSystemCPU_interval w1 w2 t1 i1 t2 i2 s :
  host_reads w1 t1 i1 -> host_reads w2 t2 i2 -> t1 <> t2 ->
  fst (getSystemCPU w2 (snd (getSystemCPU w1 s))) =
  Ok (fin (1 - (qn i2 - qn i1) / (qn t2 - qn t1))%Q).
Proof.
  intros H1 H2 Ht. rewrite getSystemCPU_two_samples with (t1 := t1) (i1 := i1) (t2 := t2) (i2 := i2)
    by assumption.
  cbn [fst]. now rewrite delta_out_fin.
Qed.

(** C3.  A fully idle interval: when the total and the idle counters both
    grow by the same [d > 0], the second call returns 0, as the spec's
    section 8 expects.  Both counters are the code's: if steal grows in the
    interval, the comment's Total grows by more than [d] and the comment
    would report a busy fraction above 0 (C8). *)
Theorem getSystemCPU_idle_interval w1 w2 t1 i1 d s :
  host_reads w1 t1 i1 -> host_reads w2 (t1 + d) (i1 + d) -> 0 < d ->
  fst (getSystemCPU w2 (snd (getSystemCPU w1 s))) = Ok (fin 0).
Proof.
  intros H1 H2 Hd. rewrite (getSystemCPU_two_samples _ _ t1 i1 (t1 + d) (i1 + d)) by assumption.
  cbn [fst]. rewrite delta_out_fin by lia. f_equal. apply fin_proper. rewrite !qn_add. pose proof (qn_pos d Hd).
  field. lra.
Qed.

(** C4.  A fully busy interval: when the total grows and the idle counter
    does not, the second call returns 1. *)
Theorem getSystemCPU_busy_interval w1 w2 t1 t2 i s :
  host_reads w1 t1 i -> host_reads w2 t2 i -> t1 < t2 ->
  fst (getSystemCPU w2 (snd (getSystemCPU w1 s))) = Ok (fin 1).
Proof.
  intros H1 H2 Ht. rewrite (getSystemCPU_two_samples _ _ t1 i t2 i) by assumption.
  cbn [fst]. rewrite delta_out_fin by lia. f_equal. apply fin_proper. pose proof (qn_lt _ _ Ht). field. lra.
Qed.

(** C5.  Over an interval where the idle counter does not decrease and
    grows by at most what the total grows, with a growing total, the
    second call returns a fraction in [0, 1].  Kernel counters that all
    grow satisfy these conditions ([bd_monotone_interval]). *)
Theorem getSystemCPU_unit_interval w1 w2 t1 i1 t2 i2 s :
  host_reads w1 t1 i1 -> host_reads w2 t2 i2 ->
  t1 < t2 -> i1 <= i2 -> i2 + t1 <= i1 + t2 ->
  exists q, fst (getSystemCPU w2 (snd (getSystemCPU w1 s))) = Ok (fin q) /\ (0 <= q <= 1)%Q.
Proof.
  intros H1 H2 Ht Hi Hb. rewrite (getSystemCPU_two_samples _ _ t1 i1 t2 i2) by assumption.
  destruct (delta_out_unit t1 i1 t2 i2 Ht Hi Hb) as (q & Hq & Hr).
  exists q. now rewrite Hq.
Qed.

(** C6.  Two calls that read the same total: [diffTotal] is 0 and the
    code does not guard the division.  The result is [NaN] when the idle
    counter did not move either, [-Infinity] when it grew, and [Infinity]
    when it shrank. *)
Theorem getSystemCPU_stalled w1 w2 t i1 i2 s :
  host_reads w1 t i1 -> host_reads w2 t i2 ->
  fst (getSystemCPU w2 (snd (getSystemCPU w1 s))) =
  Ok (if Nat.eqb i1 i2 then NaN else if Nat.ltb i1 i2 then NegInf else PosInf).
Proof.
  intros H1 H2. rewrite (getSystemCPU_two_samples _ _ t i1 t i2) by assumption.
  cbn [fst]. now rewrite delta_out_stalled.
Qed.

(** The comment's Total is the code's total plus steal. *)
Lemma comment_total_steal (b : breakdown) : comment_total b = bd_total b + b_steal b.
Proof. unfold comment_total, comment_idle, comment_nonidle, bd_total. lia. Qed.

Lemma linux_host_reads (w : world) (b : breakdown) :
  is_linux w = true -> isInDocker w = false -> linux_stat w b ->
  host_reads w (bd_total b) (bd_idle b).
Proof. intros Hl Hd Hb. split; [exact Hd|]. left. split; [exact Hl|]. eauto. Qed.

(** C8.  The comment of lines 14-16 and the code disagree on steal.  Over
    two Linux readings outside docker, with a growing total and a steal
    counter that does not decrease, the second call returns
    [1 - Δidle / Δtotal] with the code's total (steal once), and this is
    the value [comment_out] the comment describes (steal in Idle and in
    NonIdle) exactly when the idle counter or the steal counter did not
    move. *)
Theorem getSystemCPU_steal_comment (w1 w2 : world) (b1 b2 : breakdown) (s : cpu_state) :
  is_linux w1 = true -> isInDocker w1 = false -> linux_stat w1 b1 ->
  is_linux w2 = true -> isInDocker w2 = false -> linux_stat w2 b2 ->
  bd_total b1 < bd_total b2 -> b_steal b1 <= b_steal b2 ->
  (fst (getSystemCPU w2 (snd (getSystemCPU w1 s))) =
     Ok (fin (1 - (qn (bd_idle b2) - qn (bd_idle b1)) / (qn (bd_total b2) - qn (bd_total b1)))%Q)) /\
  ((1 - (qn (bd_idle b2) - qn (bd_idle b1)) / (qn (bd_total b2) - qn (bd_total b1)) ==
    comment_out b1 b2)%Q <-> bd_idle b1 = bd_idle b2 \/ b_steal b1 = b_steal b2).
Proof.
  intros Hl1 Hd1 Hb1 Hl2 Hd2 Hb2 Ht Hs.
  pose proof (qn_lt _ _ Ht) as Hq. pose proof (qn_le _ _ Hs) as Hsq. split.
  - rewrite (getSystemCPU_two_samples _ _ (bd_total b1) (bd_idle b1) (bd_total b2) (bd_idle b2))
      by (now apply linux_host_reads). cbn [fst]. now rewrite delta_out_fin by lia.
  - unfold comment_out. change (comment_idle ?b) with (bd_idle b). rewrite !comment_total_steal.
    rewrite one_minus_div_eq by (rewrite ?qn_add; lra). rewrite !qn_add. split.
    + intros [Ha | Hxy]; [left | right]; symmetry; apply qn_inj; lra.
    + intros [-> | ->]; [left | right]; lra.
Qed.

(** Counters that all grow give the conditions of C5. *)
Definition bd_le (b1 b2 : breakdown) : Prop := Forall2 le (bd_fields b1) (bd_fields b2).

Lemma bd_monotone_interval (b1 b2 : breakdown) :
  bd_le b1 b2 ->
  bd_idle b1 <= bd_idle b2 /\ bd_idle b2 + bd_total b1 <= bd_idle b1 + bd_total b2.
Proof.
  unfold bd_le, bd_fields, bd_idle, bd_total. intros H.
  repeat match goal with H : Forall2 _ (_ :: _) (_ :: _) |- _ => inversion_clear H end.
  lia.
Qed.

(** ** Witnesses *)

Lemma linux_world_reads_eq (line : string) (now : Z) (l : list nat) (t i : nat) :
  isInDocker (linux_world line now) = false ->
  stat_line_of (stat_text line) = Some (cpu_line (bd_of l)) ->
  bd_total (bd_of l) = t -> bd_idle (bd_of l) = i ->
  host_reads (linux_world line now) t i.
Proof. intros Hd Hl <- <-. now apply linux_world_reads. Qed.

Ltac host_reads_of l :=
  apply (linux_world_reads_eq _ _ l); vm_compute; reflexivity.

Definition stat_a : string := "cpu  300 0 100 500 50 0 0 50 0 0".
Definition stat_b : string := "cpu  300 0 100 1400 100 0 0 100 0 0".
Definition stat_c : string := "cpu  1300 0 100 500 50 0 0 50 0 0".
Definition stat_d : string := "cpu  300 0 100 500 50 0 0 50 7 7".

Definition zero_state : cpu_state :=
  {| lastTotal := of_Z 0; lastIdle := of_Z 0; last_used := of_Z 0; last_sys := of_Z 0 |}.

Lemma getSystemCPU_refines_witness :
  init_state (linux_world stat_a 0) = Ok zero_state /\
  Forall2 (fun w '(t, i) => host_reads w t i)
    [linux_world stat_a 5; linux_world stat_b 9] [(1000, 600); (2000, 1600)] /\
  de_run getSystemCPU [linux_world stat_a 5; linux_world stat_b 9] zero_state =
  (map Ok (delta_spec 0 0 [(1000, 600); (2000, 1600)]),
   set_host_sample (of_nat 2000) (of_nat 1600) zero_state).
Proof.
  assert (Hi : init_state (linux_world stat_a 0) = Ok zero_state) by (vm_compute; reflexivity).
  assert (HF : Forall2 (fun w '(t, i) => host_reads w t i)
    [linux_world stat_a 5; linux_world stat_b 9] [(1000, 600); (2000, 1600)]).
  { constructor; [host_reads_of [300;0;100;500;50;0;0;50;0;0]|].
    constructor; [host_reads_of [300;0;100;1400;100;0;0;100;0;0]|constructor]. }
  split; [exact Hi|]. split; [exact HF|].
  exact (getSystemCPU_refines _ _ _ _ Hi HF).
Defined.

Lemma getSystemCPU_interval_witness :
  host_reads (linux_world stat_a 0) 1000 600 /\ host_reads (linux_world stat_b 0) 2000 1600 /\
  1000 <> 2000 /\
  fst (getSystemCPU (linux_world stat_b 0) (snd (getSystemCPU (linux_world stat_a 0) zero_state))) =
  Ok (fin (1 - (qn 1600 - qn 600) / (qn 2000 - qn 1000))%Q).
Proof.
  assert (H1 : host_reads (linux_world stat_a 0) 1000 600)
    by host_reads_of [300;0;100;500;50;0;0;50;0;0].
  assert (H2 : host_reads (linux_world stat_b 0) 2000 1600)
    by host_reads_of [300;0;100;1400;100;0;0;100;0;0].
  split; [exact H1|]. split; [exact H2|]. split; [lia|].
  apply getSystemCPU_interval; [exact H1 | exact H2 | lia].
Defined.

Lemma getSystemCPU_idle_interval_witness :
  host_reads (linux_world stat_a 0) 1000 600 /\
  host_reads (linux_world stat_b 0) (1000 + 1000) (600 + 1000) /\ 0 < 1000 /\
  fst (getSystemCPU (linux_world stat_b 0) (snd (getSystemCPU (linux_world stat_a 0) zero_state))) =
  Ok (fin 0).
Proof.
  assert (H1 : host_reads (linux_world stat_a 0) 1000 600)
    by host_reads_of [300;0;100;500;50;0;0;50;0;0].
  assert (H2 : host_reads (linux_world stat_b 0) (1000 + 1000) (600 + 1000))
    by host_reads_of [300;0;100;1400;100;0;0;100;0;0].
  split; [exact H1|]. split; [exact H2|]. split; [lia|].
  exact (getSystemCPU_idle_interval _ _ 1000 600 1000 zero_state H1 H2 ltac:(lia)).
Defined.

Lemma getSystemCPU_busy_interval_witness :
  host_reads (linux_world stat_a 0) 1000 600 /\ host_reads (linux_world stat_c 0) 2000 600 /\
  1000 < 2000 /\
  fst (getSystemCPU (linux_world stat_c 0) (snd (getSystemCPU (linux_world stat_a 0) zero_state))) =
  Ok (fin 1).
Proof.
  assert (H1 : host_reads (linux_world stat_a 0) 1000 600)
    by host_reads_of [300;0;100;500;50;0;0;50;0;0].
  assert (H2 : host_reads (linux_world stat_c 0) 2000 600)
    by host_reads_of [1300;0;100;500;50;0;0;50;0;0].
  split; [exact H1|]. split; [exact H2|]. split; [lia|].
  exact (getSystemCPU_busy_interval _ _ 1000 2000 600 zero_state H1 H2 ltac:(lia)).
Defined.

Lemma getSystemCPU_unit_interval_witness :
  host_reads (linux_world stat_a 0) 1000 600 /\ host_reads (linux_world stat_b 0) 2000 1600 /\
  exists q, fst (getSystemCPU (linux_world stat_b 0)
                   (snd (getSystemCPU (linux_world stat_a 0) zero_state))) = Ok (fin q) /\
            (0 <= q <= 1)%Q.
Proof.
  assert (H1 : host_reads (linux_world stat_a 0) 1000 600)
    by host_reads_of [300;0;100;500;50;0;0;50;0;0].
  assert (H2 : host_reads (linux_world stat_b 0) 2000 1600)
    by host_reads_of [300;0;100;1400;100;0;0;100;0;0].
  split; [exact H1|]. split; [exact H2|].
  exact (getSystemCPU_unit_interval _ _ 1000 600 2000 1600 zero_state H1 H2
           ltac:(lia) ltac:(lia) ltac:(lia)).
Defined.

Lemma getSystemCPU_stalled_witness :
  host_reads (linux_world stat_a 0) 1000 600 /\ host_reads (linux_world stat_d 0) 1000 600 /\
  fst (getSystemCPU (linux_world stat_d 0) (snd (getSystemCPU (linux_world stat_a 0) zero_state))) =
  Ok NaN.
Proof.
  assert (H1 : host_reads (linux_world stat_a 0) 1000 600)
    by host_reads_of [300;0;100;500;50;0;0;50;0;0].
  assert (H2 : host_reads (linux_world stat_d 0) 1000 600)
    by host_reads_of [300;0;100;500;50;0;0;50;7;7].
  split; [exact H1|]. split; [exact H2|].
  exact (getSystemCPU_stalled _ _ 1000 600 600 zero_state H1 H2).
Defined.

Lemma linux_world_stat (line : string) (now : Z) (b : breakdown) :
  stat_line_of (stat_text line) = Some (cpu_line b) -> linux_stat (linux_world line now) b.
Proof. intros H. exists (stat_text line). split; [reflexivity | exact H]. Qed.

Definition bd_a : breakdown := bd_of [300; 0; 100; 500; 50; 0; 0; 50; 0; 0].
Definition bd_b : breakdown := bd_of [300; 0; 100; 1400; 100; 0; 0; 100; 0; 0].

Lemma getSystemCPU_steal_comment_witness :
  fst (getSystemCPU (linux_world stat_b 9) (snd (getSystemCPU (linux_world stat_a 5) zero_state))) =
    Ok (fin 0) /\
  (comment_out bd_a bd_b == 1 # 21)%Q /\ ~ (0 == comment_out bd_a bd_b)%Q.
Proof.
  assert (Ha : linux_stat (linux_world stat_a 5) bd_a) by (apply linux_world_stat; vm_compute; reflexivity).
  assert (Hb : linux_stat (linux_world stat_b 9) bd_b) by (apply linux_world_stat; vm_compute; reflexivity).
  assert (Hda : isInDocker (linux_world stat_a 5) = false) by (vm_compute; reflexivity).
  assert (Hdb : isInDocker (linux_world stat_b 9) = false) by (vm_compute; reflexivity).
  assert (Ht : bd_total bd_a < bd_total bd_b) by (unfold bd_total; cbn; lia).
  assert (Hs : b_steal bd_a <= b_steal bd_b) by (cbn; lia).
  destruct (getSystemCPU_steal_comment (linux_world stat_a 5) (linux_world stat_b 9) bd_a bd_b zero_state
              eq_refl Hda Ha eq_refl Hdb Hb Ht Hs) as [Hr Hiff].
  split; [rewrite Hr; vm_compute; reflexivity|]. split; [vm_compute; reflexivity|].
  intros H. assert (Hc : bd_idle bd_a = bd_idle bd_b \/ b_steal bd_a = b_steal bd_b).
  { apply Hiff. rewrite <- H. vm_compute. reflexivity. }
  cbn in Hc. lia.
Defined.

(** ** The docker path *)

(** The output of the docker path: [diff_used / diff_sys / share]. *)
Definition docker_out (lu ls used : num) (now : Z) (share : num) : num :=
  (((used - lu) * of_Z 10) / (of_Z now - ls) / share)%num.

Lemma getSystemCPU_docker_law (w : world) (s : cpu_state) (used share : num) :
  isInDocker w = true -> getAllCPU w = Ok used -> _getDockerCPUs w = Ok share ->
  getSystemCPU w s =
  (Ok (docker_out (last_used s) (last_sys s) used (now_ms w) share),
   set_docker_sample used (of_Z (now_ms w)) s).
Proof. intros Hd Hu Hs. unfold getSystemCPU. rewrite Hd, Hu. run_js. now rewrite Hs. Qed.

(** Between two distinct clock readings and with a non-zero share, the
    docker output is finite. *)
Lemma docker_out_fin (u1 u2 : nat) (n1 n2 : Z) (q : Q) :
  n1 <> n2 -> ~ q == 0 ->
  docker_out (of_nat u1) (of_Z n1) (of_nat u2) n2 (fin q) =
  fin ((qn u2 - qn u1) * 10 / (inject_Z n2 - inject_Z n1) / q).
Proof.
  intros Hn Hq. unfold docker_out. rewrite sub_of_nat, !of_Z_fin, mul_fin, sub_fin.
  rewrite div_fin, div_fin; [reflexivity | exact Hq |].
  intros E. apply Hn. symmetry. apply inject_Z_injective. lra.
Qed.

(** C7.  In docker, [getSystemCPU] sums the process ticks, scales their
    difference with [last_used] by 10, divides by the milliseconds since
    [last_sys] and by the CPU share.  It stores the new sample and keeps
    [lastTotal] and [lastIdle]. *)
Theorem getSystemCPU_docker (w : world) (s : cpu_state) (used share : num) :
  isInDocker w = true -> getAllCPU w = Ok used -> _getDockerCPUs w = Ok share ->
  getSystemCPU w s =
  (Ok (docker_out (last_used s) (last_sys s) used (now_ms w) share),
   set_docker_sample used (of_Z (now_ms w)) s).
Proof. apply getSystemCPU_docker_law. Qed.

(** C9.  In docker, when [_getDockerCPUs] throws (a cgroup file that is a
    directory: [existsSync] is true and [readFileSync] fails), the
    exception escapes [getSystemCPU] after the new sample has been stored.
    The next call measures from a sample whose output was never returned. *)
Theorem getSystemCPU_docker_throw (w : world) (s : cpu_state) (used : num) (e : exn) :
  isInDocker w = true -> getAllCPU w = Ok used -> _getDockerCPUs w = Throw e ->
  getSystemCPU w s = (Throw e, set_docker_sample used (of_Z (now_ms w)) s).
Proof. intros Hd Hu Hs. unfold getSystemCPU. rewrite Hd, Hu. run_js. now rewrite Hs. Qed.

(** C10.  In docker, the module samples [getAllCPU] and the clock when it
    loads, so the first call measures the interval since load.  The spec
    (4.4) expects a zero sentinel in every mode. *)
Theorem getSystemCPU_docker_first_call (w0 w : world) (s0 : cpu_state) (u0 used share : num) :
  isInDocker w0 = true -> getAllCPU w0 = Ok u0 -> init_state w0 = Ok s0 ->
  isInDocker w = true -> getAllCPU w = Ok used -> _getDockerCPUs w = Ok share ->
  fst (getSystemCPU w s0) =
  Ok ((((used - u0) * of_Z 10) / (of_Z (now_ms w) - of_Z (now_ms w0))) / share)%num.
Proof.
  intros Hd0 Hu0 Hinit Hd Hu Hs. unfold init_state in Hinit. rewrite Hd0, Hu0 in Hinit.
  injection Hinit as <-. now rewrite (getSystemCPU_docker_law w _ used share Hd Hu Hs).
Qed.

(** ** Docker witnesses *)

(** A container with two processes, a 1.5-CPU quota, and the given clock. *)
Definition docker_world (ticks1 ticks42 : string) (now : Z) : world :=
  set_file cgroup_path (line_nl "12:devices:/docker/4f2a")
  (set_dir "/proc" ["1"; "self"; "42"]
  (set_file "/proc/1/stat" ("1 (init) S 0 1 1 0 -1 4194560 100 0 0 0 " ++ ticks1 ++ " 20 0")
  (set_file "/proc/42/stat" ("42 (node) R 1 42 42 0 -1 4194560 900 0 0 0 " ++ ticks42 ++ " 20 0")
  (set_file quota_path (line_nl "150000")
  (set_file period_path (line_nl "100000")
  (bare_world "Linux" [] now)))))).

(** The same container whose quota path is a directory. *)
Definition docker_world_bad_quota (now : Z) : world :=
  set_dir quota_path [] (set_file cgroup_path (line_nl "12:devices:/docker/4f2a")
  (set_dir "/proc" ["1"] (set_file period_path (line_nl "100000") (bare_world "Linux" [] now)))).

Lemma getSystemCPU_docker_witness :
  isInDocker (docker_world "30 20 5 5" "100 50 0 0" 2000) = true /\
  getAllCPU (docker_world "30 20 5 5" "100 50 0 0" 2000) = Ok (of_Z 210) /\
  _getDockerCPUs (docker_world "30 20 5 5" "100 50 0 0" 2000) = Ok (fin (3 # 2)) /\
  getSystemCPU (docker_world "30 20 5 5" "100 50 0 0" 2000) zero_state =
  (Ok (docker_out (of_Z 0) (of_Z 0) (of_Z 210) 2000 (fin (3 # 2))),
   set_docker_sample (of_Z 210) (of_Z 2000) zero_state).
Proof.
  assert (Hd : isInDocker (docker_world "30 20 5 5" "100 50 0 0" 2000) = true)
    by (vm_compute; reflexivity).
  assert (Hu : getAllCPU (docker_world "30 20 5 5" "100 50 0 0" 2000) = Ok (of_Z 210))
    by (vm_compute; reflexivity).
  assert (Hs : _getDockerCPUs (docker_world "30 20 5 5" "100 50 0 0" 2000) = Ok (fin (3 # 2)))
    by (vm_compute; reflexivity).
  split; [exact Hd|]. split; [exact Hu|]. split; [exact Hs|].
  exact (getSystemCPU_docker _ zero_state _ _ Hd Hu Hs).
Defined.

Lemma getSystemCPU_docker_throw_witness :
  isInDocker (docker_world_bad_quota 2000) = true /\
  getAllCPU (docker_world_bad_quota 2000) = Ok (of_Z 0) /\
  _getDockerCPUs (docker_world_bad_quota 2000) = Throw (EISDIR quota_path) /\
  getSystemCPU (docker_world_bad_quota 2000) zero_state =
  (Throw (EISDIR quota_path), set_docker_sample (of_Z 0) (of_Z 2000) zero_state).
Proof.
  assert (Hd : isInDocker (docker_world_bad_quota 2000) = true) by (vm_compute; reflexivity).
  assert (Hu : getAllCPU (docker_world_bad_quota 2000) = Ok (of_Z 0)) by (vm_compute; reflexivity).
  assert (Hs : _getDockerCPUs (docker_world_bad_quota 2000) = Throw (EISDIR quota_path))
    by (vm_compute; reflexivity).
  split; [exact Hd|]. split; [exact Hu|]. split; [exact Hs|].
  exact (getSystemCPU_docker_throw _ zero_state _ _ Hd Hu Hs).
Defined.

Lemma getSystemCPU_docker_first_call_witness :
  exists s0, init_state (docker_world "30 20 5 5" "100 50 0 0" 1000) = Ok s0 /\
  fst (getSystemCPU (docker_world "60 40 5 5" "160 80 0 0" 3000) s0) =
  Ok ((((of_Z 350 - of_Z 210) * of_Z 10) / (of_Z 3000 - of_Z 1000)) / fin (3 # 2))%num.
Proof.
  eexists. split; [vm_compute; reflexivity|].
  apply (getSystemCPU_docker_first_call (docker_world "30 20 5 5" "100 50 0 0" 1000));
    vm_compute; reflexivity.
Defined.
