(* ===== verification/Readers.v ===== *)
(** * Memory and load readers: [getLoadAvg], [getTotalMemory],
    [getMemoryUsage] (system.js, lines 206-242)

    [getLoadAvg] matches [/(\d.\d+)\s+(\d.\d+)\s+(\d.\d+)/] against the
    trimmed [/proc/loadavg] and converts the three groups with [Number];
    without a match it returns [os.loadavg()].  The regular expression is
    modelled by a leftmost search ([search_load]) with a per-position
    matcher ([match_load_at]).  At one position the match is unique: [.]
    takes one character, every [\d+] is followed by [\s+] or ends the
    pattern, and every [\s+] is followed by [\d], so the greedy run is the
    only one backtracking can find.  [Number] of a group (a digit, any
    character, digits) follows ECMAScript's StringToNumber on that shape.

    [getTotalMemory] returns the first [MemTotal] line of [/proc/meminfo]
    times 1024, or [os.totalmem()].  [getMemoryUsage] sums [MemFree],
    [Buffers] and [Cached] (each line that has one of these labels) times
    1024.  A missing file throws: nothing here catches. *)

From Stdlib Require Import String Ascii List Bool ZArith QArith Lia.
From S2P Require Import Prelude JsNum JsString Host Docker.
Import ListNotations.
Open Scope string_scope.

(** ** The regular expression of line 208 *)

(** [.] matches any character but a line terminator. *)
Definition is_line_term (c : ascii) : bool :=
  Nat.eqb (nat_of_ascii c) 10 || Nat.eqb (nat_of_ascii c) 13.

(** [\d+] and [\s+], greedy: the longest run and the rest. *)
Fixpoint span (f : ascii -> bool) (s : string) : string * string :=
  match s with
  | String c s' =>
      if f c then let '(run, rest) := span f s' in (String c run, rest) else (EmptyString, s)
  | EmptyString => (EmptyString, EmptyString)
  end.

(** [(\d.\d+)] at the start of [s]: the group and the rest. *)
Definition match_group (s : string) : option (string * string) :=
  match s with
  | String d (String c r) =>
      if is_digit d && negb (is_line_term c) then
        match span is_digit r with
        | (EmptyString, _) => None
        | (ds, rest) => Some (String d (String c ds), rest)
        end
      else None
  | _ => None
  end.

(** [\s+] at the start of [s]: the rest after the run. *)
Definition match_ws (s : string) : option string :=
  match span is_ws s with
  | (EmptyString, _) => None
  | (_, rest) => Some rest
  end.

Definition match_load_at (s : string) : option (string * string * string) :=
  match match_group s with
  | None => None
  | Some (g1, r1) =>
      match match_ws r1 with
      | None => None
      | Some r1' =>
          match match_group r1' with
          | None => None
          | Some (g2, r2) =>
              match match_ws r2 with
              | None => None
              | Some r2' =>
                  match match_group r2' with
                  | None => None
                  | Some (g3, _) => Some (g1, g2, g3)
                  end
              end
          end
      end
  end.

(** [load.match(reg)]: the match at the leftmost position that has one. *)
Fixpoint search_load (s : string) : option (string * string * string) :=
  match match_load_at s with
  | Some m => Some m
  | None =>
      match s with
      | EmptyString => None
      | String _ s' => search_load s'
      end
  end.

(** ** [Number] of a group *)

(** The value of a run of digits in base [b], when every digit is below
    [b]. *)
Fixpoint digits_in_base (b : Z) (acc : Z) (s : string) : option Z :=
  match s with
  | EmptyString => Some acc
  | String c s' =>
      match digit_val c with
      | Some d => if (Z.of_nat d <? b)%Z then digits_in_base b (b * acc + Z.of_nat d)%Z s' else None
      | None => None
      end
  end.

Definition of_opt_Z (o : option Z) : num :=
  match o with Some z => of_Z z | None => NaN end.

(** [Number(g)] for a group [d c ds]: a decimal fraction when [c] is [.],
    an integer when [c] is a digit, an exponent when [c] is [e] or [E],
    a hexadecimal, octal or binary literal after ["0x"], ["0o"], ["0b"]
    (either case), [NaN] otherwise. *)
Definition Number_group (g : string) : num :=
  match g with
  | String d (String c ds) =>
      let dz := digits_value 0 (String d EmptyString) in
      let n := digits_value 0 ds in
      if Ascii.eqb c "." then
        fin (inject_Z (dz * 10 ^ Z.of_nat (String.length ds) + n) /
             inject_Z (10 ^ Z.of_nat (String.length ds)))
      else if is_digit c then of_Z (digits_value 0 g)
      else if Ascii.eqb c "e" || Ascii.eqb c "E" then of_Z (dz * 10 ^ n)
      else if Ascii.eqb d "0" && (Ascii.eqb c "x" || Ascii.eqb c "X") then
        of_opt_Z (digits_in_base 16 0 ds)
      else if Ascii.eqb d "0" && (Ascii.eqb c "o" || Ascii.eqb c "O") then
        of_opt_Z (digits_in_base 8 0 ds)
      else if Ascii.eqb d "0" && (Ascii.eqb c "b" || Ascii.eqb c "B") then
        of_opt_Z (digits_in_base 2 0 ds)
      else NaN
  | _ => NaN
  end.

(** ** The readers *)

Definition getLoadAvg (w : world) : res (num * num * num) :=
  (let? raw := readFileSync w "/proc/loadavg" in
   let load := trim raw in
   match search_load load with
   | Some (g1, g2, g3) => Ok (Number_group g1, Number_group g2, Number_group g3)
   | None => Ok (os_loadavg w)
   end)%js.

(** [line.split(':')[0]]; [split] never returns an empty array. *)
Definition label_of (line : string) : string :=
  match split ":"%char line with
  | p :: _ => p
  | [] => EmptyString
  end.

(** [parseInt(line.split(':')[1], 10)] *)
Definition value_of (line : string) : num :=
  parseInt (js_str (nth_error (split ":"%char line) 1)).

Definition getTotalMemory (w : world) : res num :=
  (let? raw := readFileSync w "/proc/meminfo" in
   let usage := split nl (trim raw) in
   match find (fun line => String.eqb (label_of line) "MemTotal") usage with
   | Some line => Ok (value_of line * of_Z 1024)%num
   | None => Ok (os_totalmem w)
   end)%js.

(** [['MemFree', 'Buffers', 'Cached'].indexOf(pair[0]) >= 0] *)
Definition free_label (l : string) : bool :=
  existsb (String.eqb l) ["MemFree"; "Buffers"; "Cached"].

Definition getMemoryUsage (w : world) : res num :=
  (let? raw := readFileSync w "/proc/meminfo" in
   let usage := split nl (trim raw) in
   let real_free :=
     fold_left
       (fun real_free line =>
          if free_label (label_of line) then (real_free + value_of line)%num else real_free)
       usage (of_Z 0) in
   Ok (real_free * of_Z 1024)%num)%js.

(** ** The kernel's [/proc/loadavg]

    The kernel prints each load as ["%lu.%02lu"]: the integer part, a
    point and two digits. *)

Open Scope nat_scope.

Definition digit_ascii (d : nat) : ascii := ascii_of_nat (48 + d).

Definition two_digits (f : nat) : string :=
  String (digit_ascii (f / 10)) (String (digit_ascii (f mod 10)) EmptyString).

Definition load_text (i f : nat) : string := append (show_nat i) (String "." (two_digits f)).

Definition load_value (i f : nat) : Q := (inject_Z (Z.of_nat (100 * i + f)) / inject_Z 100)%Q.

(** The three loads, separated by a space. *)
Definition load_line (i1 f1 i2 f2 i3 f3 : nat) : string :=
  append (load_text i1 f1) (String " " (append (load_text i2 f2) (String " " (load_text i3 f3)))).

(** Empty, or starting with a character that is not a digit. *)
Definition no_digit_head (s : string) : bool :=
  match s with String c _ => negb (is_digit c) | EmptyString => true end.

Lemma digit_ascii_val (d : nat) : d < 10 -> digit_val (digit_ascii d) = Some d.
Proof. intros H. do 10 (destruct d as [|d]; [reflexivity|]). lia. Qed.

Lemma is_digit_ascii (d : nat) : d < 10 -> is_digit (digit_ascii d) = true.
Proof. intros H. unfold is_digit. now rewrite digit_ascii_val. Qed.

Lemma digit_ascii_not_ws (d : nat) : d < 10 -> is_ws (digit_ascii d) = false.
Proof. intros H. apply digit_char. now apply is_digit_ascii. Qed.

Lemma show_nat_small (i : nat) : i < 10 -> show_nat i = String (digit_ascii i) EmptyString.
Proof. intros H. do 10 (destruct i as [|i]; [reflexivity|]). lia. Qed.

Lemma show_nat_two (i : nat) :
  10 <= i < 100 ->
  show_nat i = String (digit_ascii (i / 10)) (String (digit_ascii (i mod 10)) EmptyString).
Proof.
  intros H.
  assert (Hall : forallb (fun i => String.eqb (show_nat i)
            (String (digit_ascii (i / 10)) (String (digit_ascii (i mod 10)) EmptyString)))
            (seq 10 90) = true) by (vm_compute; reflexivity).
  rewrite forallb_forall in Hall. apply String.eqb_eq, Hall, in_seq. lia.
Qed.

Lemma digits_value_two (f : nat) : f < 100 -> digits_value 0 (two_digits f) = Z.of_nat f.
Proof.
  intros H. unfold two_digits.
  rewrite (digits_value_cons _ _ _ (f / 10)) by (apply digit_ascii_val; apply Nat.Div0.div_lt_upper_bound; lia).
  rewrite (digits_value_cons _ _ _ (f mod 10)) by (apply digit_ascii_val, Nat.mod_upper_bound; lia).
  cbn [digits_value]. pose proof (Nat.div_mod_eq f 10). lia.
Qed.

Lemma span_cons_true (f : ascii -> bool) (c : ascii) (s : string) :
  f c = true -> span f (String c s) = let '(run, rest) := span f s in (String c run, rest).
Proof. intros H. cbn [span]. now rewrite H. Qed.

Lemma span_cons_false (f : ascii -> bool) (c : ascii) (s : string) :
  f c = false -> span f (String c s) = (EmptyString, String c s).
Proof. intros H. cbn [span]. now rewrite H. Qed.

Lemma span_no_digit_head (r : string) :
  no_digit_head r = true -> span is_digit r = (EmptyString, r).
Proof.
  destruct r as [|c r]; [reflexivity|]. intros Hr. apply span_cons_false.
  now apply negb_true_iff.
Qed.

Lemma span_two_digits (f : nat) (r : string) :
  f < 100 -> no_digit_head r = true ->
  span is_digit (append (two_digits f) r) = (two_digits f, r).
Proof.
  intros Hf Hr. unfold two_digits. rewrite !append_cons.
  rewrite !span_cons_true by (apply is_digit_ascii;
    (apply Nat.mod_upper_bound || apply Nat.Div0.div_lt_upper_bound); lia).
  now rewrite span_no_digit_head.
Qed.

Lemma load_text_small (i f : nat) :
  i < 10 -> load_text i f = String (digit_ascii i) (String "." (two_digits f)).
Proof. intros H. unfold load_text. now rewrite show_nat_small. Qed.

Lemma load_text_two (i f : nat) :
  10 <= i < 100 -> load_text i f = String (digit_ascii (i / 10)) (load_text (i mod 10) f).
Proof.
  intros H. rewrite (load_text_small (i mod 10)) by (apply Nat.mod_upper_bound; lia).
  unfold load_text. now rewrite show_nat_two.
Qed.

Lemma match_group_load (i f : nat) (r : string) :
  i < 10 -> f < 100 -> no_digit_head r = true ->
  match_group (append (load_text i f) r) = Some (load_text i f, r).
Proof.
  intros Hi Hf Hr. rewrite load_text_small by exact Hi. rewrite !append_cons.
  unfold match_group. rewrite is_digit_ascii by exact Hi.
  rewrite span_two_digits by assumption. reflexivity.
Qed.

Lemma match_ws_space (c : ascii) (s : string) :
  is_ws c = false -> match_ws (String " " (String c s)) = Some (String c s).
Proof. intros Hc. unfold match_ws. cbn [span]. now rewrite Hc. Qed.

Lemma match_ws_load (i f : nat) (r : string) :
  i < 10 -> match_ws (String " " (append (load_text i f) r)) = Some (append (load_text i f) r).
Proof.
  intros Hi. rewrite load_text_small by exact Hi. rewrite !append_cons.
  apply match_ws_space, digit_ascii_not_ws, Hi.
Qed.

Lemma match_load_at_line (i1 f1 i2 f2 i3 f3 : nat) (r : string) :
  i1 < 10 -> f1 < 100 -> i2 < 10 -> f2 < 100 -> i3 < 10 -> f3 < 100 ->
  no_digit_head r = true ->
  match_load_at (append (load_line i1 f1 i2 f2 i3 f3) r) =
  Some (load_text i1 f1, load_text i2 f2, load_text i3 f3).
Proof.
  intros. unfold load_line. repeat (rewrite <- append_assoc_str || rewrite append_cons).
  unfold match_load_at.
  rewrite match_group_load by (assumption || reflexivity). rewrite match_ws_load by assumption.
  rewrite match_group_load by (assumption || reflexivity). rewrite match_ws_load by assumption.
  now rewrite match_group_load.
Qed.

Lemma Number_group_load (i f : nat) :
  i < 10 -> f < 100 -> Number_group (load_text i f) = fin (load_value i f).
Proof.
  intros Hi Hf. rewrite load_text_small by exact Hi. unfold Number_group.
  rewrite Ascii.eqb_refl. rewrite digits_value_two by exact Hf.
  rewrite (digits_value_cons _ _ _ i) by (now apply digit_ascii_val).
  unfold load_value. cbn [digits_value String.length two_digits].
  do 3 f_equal. lia.
Qed.

Lemma ends_nonws_load (i f : nat) : i < 10 -> f < 100 -> ends_nonws (load_text i f) = true.
Proof.
  intros Hi Hf. rewrite load_text_small by exact Hi. unfold two_digits. cbn [ends_nonws].
  now rewrite digit_ascii_not_ws by (apply Nat.mod_upper_bound; lia).
Qed.

Lemma ends_nonws_load_line (i1 f1 i2 f2 i3 f3 : nat) :
  i3 < 10 -> f3 < 100 -> ends_nonws (load_line i1 f1 i2 f2 i3 f3) = true.
Proof.
  intros Hi Hf. unfold load_line.
  rewrite ends_nonws_app by discriminate. cbn [ends_nonws].
  destruct (append (load_text i2 f2) (String " " (load_text i3 f3))) eqn:E.
  { destruct (load_text i2 f2); discriminate. }
  rewrite <- E, ends_nonws_app by discriminate. cbn [ends_nonws].
  rewrite load_text_small by exact Hi. rewrite <- load_text_small by exact Hi.
  now apply ends_nonws_load.
Qed.

(** The trimmed file: the loads and a tail that starts with no digit. *)
Lemma trim_load_file (c : ascii) (s rest : string) :
  is_ws c = false -> ends_nonws (String c s) = true ->
  exists r, trim (append (String c s) (String " " rest)) = append (String c s) r /\
            no_digit_head r = true.
Proof.
  intros Hc Hs. rewrite trim_app_nonws by assumption.
  eexists; split; [reflexivity|]. cbn [trim_end]. now destruct (trim_end rest).
Qed.

Lemma search_load_here (s : string) (m : string * string * string) :
  match_load_at s = Some m -> search_load s = Some m.
Proof. intros H. destruct s; cbn [search_load]; now rewrite H. Qed.

Lemma search_load_skip (c : ascii) (s : string) :
  match_load_at (String c s) = None -> search_load (String c s) = search_load s.
Proof. intros H. cbn [search_load]. now rewrite H. Qed.

Lemma search_load_nondigit (c : ascii) (s : string) :
  is_digit c = false -> search_load (String c s) = search_load s.
Proof.
  intros Hc. cbn [search_load]. unfold match_load_at, match_group.
  destruct s; [reflexivity|]. now rewrite Hc.
Qed.

Lemma search_load_no_digit (s : string) :
  all_chars (fun c => negb (is_digit c)) s = true -> search_load s = None.
Proof.
  induction s as [|c s IH]; [reflexivity|]. cbn [all_chars].
  intros [Hc Hs]%andb_prop. apply negb_true_iff in Hc.
  rewrite search_load_nondigit by exact Hc. now apply IH.
Qed.

Lemma all_chars_trim_start (f : ascii -> bool) (s : string) :
  all_chars f s = true -> all_chars f (trim_start s) = true.
Proof.
  induction s as [|c s IH]; [reflexivity|]. cbn [trim_start]. intros H.
  destruct (is_ws c); [|exact H]. apply IH. cbn [all_chars] in H. now apply andb_prop in H.
Qed.

Lemma all_chars_trim_end (f : ascii -> bool) (t : string) :
  all_chars f t = true -> all_chars f (trim_end t) = true.
Proof.
  induction t as [|c t IH]; [reflexivity|]. cbn [all_chars trim_end].
  intros [Hc Ht]%andb_prop. specialize (IH Ht).
  destruct (trim_end t) as [|a s0].
  - destruct (is_ws c); cbn; rewrite ?Hc; reflexivity.
  - cbn [all_chars] in IH |- *. now rewrite Hc.
Qed.

Lemma all_chars_trim (f : ascii -> bool) (s : string) :
  all_chars f s = true -> all_chars f (trim s) = true.
Proof. intros H. now apply all_chars_trim_end, all_chars_trim_start. Qed.

Lemma load_line_small (i1 f1 i2 f2 i3 f3 : nat) :
  i1 < 10 -> exists s, load_line i1 f1 i2 f2 i3 f3 = String (digit_ascii i1) s.
Proof. intros H. unfold load_line. rewrite load_text_small by exact H. eexists; reflexivity. Qed.

Lemma load_line_two (i1 f1 i2 f2 i3 f3 : nat) :
  10 <= i1 < 100 ->
  load_line i1 f1 i2 f2 i3 f3 = String (digit_ascii (i1 / 10)) (load_line (i1 mod 10) f1 i2 f2 i3 f3).
Proof. intros H. unfold load_line. now rewrite load_text_two. Qed.

(** A match of the three groups in the trimmed file is what [getLoadAvg]
    converts. *)
Lemma getLoadAvg_match (w : world) (c : ascii) (s rest : string) (g1 g2 g3 : string) :
  is_ws c = false -> ends_nonws (String c s) = true ->
  (forall r, no_digit_head r = true -> search_load (append (String c s) r) = Some (g1, g2, g3)) ->
  readFileSync w "/proc/loadavg" = Ok (append (String c s) (String " " rest)) ->
  getLoadAvg w = Ok (Number_group g1, Number_group g2, Number_group g3).
Proof.
  intros Hc Hs Hm Hr. unfold getLoadAvg. rewrite Hr. cbn [res_bind].
  destruct (trim_load_file c s rest Hc Hs) as (r & -> & Hd). now rewrite Hm.
Qed.

Lemma search_load_line (i1 f1 i2 f2 i3 f3 : nat) (r : string) :
  i1 < 10 -> f1 < 100 -> i2 < 10 -> f2 < 100 -> i3 < 10 -> f3 < 100 ->
  no_digit_head r = true ->
  search_load (append (load_line i1 f1 i2 f2 i3 f3) r) =
  Some (load_text i1 f1, load_text i2 f2, load_text i3 f3).
Proof. intros. apply search_load_here. now apply match_load_at_line. Qed.

(** At the first digit of a two-digit load the group cannot match: the
    character after [\d.] is the point. *)
Lemma match_load_at_two (i1 f1 i2 f2 i3 f3 : nat) (r : string) :
  10 <= i1 < 100 ->
  match_load_at (append (load_line i1 f1 i2 f2 i3 f3) r) = None.
Proof.
  intros H. rewrite load_line_two by exact H. unfold load_line.
  rewrite load_text_small by (apply Nat.mod_upper_bound; lia).
  repeat (rewrite <- append_assoc_str || rewrite append_cons).
  unfold match_load_at, match_group.
  rewrite !is_digit_ascii by (apply Nat.mod_upper_bound || apply Nat.Div0.div_lt_upper_bound; lia).
  rewrite span_cons_false by reflexivity. now destruct (negb _).
Qed.

(** [os.loadavg()] figures' fallback: a text with no digit. *)
Definition no_digit (s : string) : bool := all_chars (fun c => negb (is_digit c)) s.

(** ** Load-average theorems *)

(** C19: on the kernel's [/proc/loadavg], three loads below 10 printed as
    ["%lu.%02lu"] and then a space and anything, [getLoadAvg] returns the
    three loads. *)
Theorem getLoadAvg_kernel (w : world) (i1 f1 i2 f2 i3 f3 : nat) (rest : string) :
  i1 < 10 -> f1 < 100 -> i2 < 10 -> f2 < 100 -> i3 < 10 -> f3 < 100 ->
  readFileSync w "/proc/loadavg" = Ok (append (load_line i1 f1 i2 f2 i3 f3) (String " " rest)) ->
  getLoadAvg w = Ok (fin (load_value i1 f1), fin (load_value i2 f2), fin (load_value i3 f3)).
Proof.
  intros H1 H2 H3 H4 H5 H6 Hr.
  destruct (load_line_small i1 f1 i2 f2 i3 f3 H1) as (s & Hs). rewrite Hs in Hr.
  rewrite <- !Number_group_load by assumption.
  apply (getLoadAvg_match w (digit_ascii i1) s rest); [now apply digit_ascii_not_ws | | | exact Hr].
  - rewrite <- Hs. now apply ends_nonws_load_line.
  - intros r Hd. rewrite <- Hs. now apply search_load_line.
Qed.

(** C20: a one-minute load of 10 or more is misread: the match starts at
    its second digit, so [getLoadAvg] returns the load modulo 10, which is
    less than the load. *)
Theorem getLoadAvg_high_load (w : world) (i1 f1 i2 f2 i3 f3 : nat) (rest : string) :
  10 <= i1 < 100 -> f1 < 100 -> i2 < 10 -> f2 < 100 -> i3 < 10 -> f3 < 100 ->
  readFileSync w "/proc/loadavg" = Ok (append (load_line i1 f1 i2 f2 i3 f3) (String " " rest)) ->
  getLoadAvg w = Ok (fin (load_value (i1 mod 10) f1), fin (load_value i2 f2), fin (load_value i3 f3)) /\
  (load_value (i1 mod 10) f1 < load_value i1 f1)%Q.
Proof.
  intros H1 H2 H3 H4 H5 H6 Hr. assert (Hm : i1 mod 10 < 10) by (apply Nat.mod_upper_bound; lia).
  split.
  - rewrite load_line_two in Hr by exact H1.
    rewrite <- !Number_group_load by assumption.
    apply (getLoadAvg_match w (digit_ascii (i1 / 10)) (load_line (i1 mod 10) f1 i2 f2 i3 f3) rest);
      [apply digit_ascii_not_ws, Nat.Div0.div_lt_upper_bound; lia | | | exact Hr].
    + rewrite <- load_line_two by exact H1. now apply ends_nonws_load_line.
    + intros r Hd. pose proof (match_load_at_two i1 f1 i2 f2 i3 f3 r H1) as Hn.
      rewrite load_line_two, append_cons in Hn by exact H1. rewrite append_cons.
      rewrite search_load_skip by exact Hn. now apply search_load_line.
  - unfold load_value. apply Qmult_lt_r; [reflexivity|]. rewrite <- Zlt_Qlt.
    pose proof (Nat.div_mod_eq i1 10). lia.
Qed.

(** C21: a [/proc/loadavg] with no digit does not match, and [getLoadAvg]
    returns [os.loadavg()]. *)
Theorem getLoadAvg_no_digit (w : world) (raw : string) :
  readFileSync w "/proc/loadavg" = Ok raw -> no_digit raw = true ->
  getLoadAvg w = Ok (os_loadavg w).
Proof.
  intros Hr Hd. unfold getLoadAvg. rewrite Hr. cbn [res_bind].
  now rewrite search_load_no_digit by now apply all_chars_trim.
Qed.

(** ** The kernel's [/proc/meminfo]

    Each line is a label, a colon, blanks, the value and [" kB"] where the
    kernel prints a unit ([HugePages_Total] and the like print none). *)

Fixpoint spaces (k : nat) : string :=
  match k with 0 => EmptyString | S k => String " " (spaces k) end.

Record mem_entry := { me_label : string; me_pad : nat; me_kB : nat; me_unit : bool }.

Definition me_unit_text (u : bool) : string := if u then " kB" else EmptyString.

Definition me_tail (e : mem_entry) : string :=
  append (spaces (me_pad e)) (append (show_nat (me_kB e)) (me_unit_text (me_unit e))).

Definition me_line (e : mem_entry) : string := append (me_label e) (String ":" (me_tail e)).

(** A label: it starts with a non-blank and holds no colon and no newline. *)
Definition label_ok (l : string) : bool :=
  match l with String c _ => negb (is_ws c) | EmptyString => false end &&
  no_char ":" l && no_char nl l.

Definition meminfo_text (l : list mem_entry) : string := line_nl (join nl (map me_line l)).

Lemma no_char_spaces (c : ascii) (k : nat) : Ascii.eqb c " " = false -> no_char c (spaces k) = true.
Proof.
  intros Hc. induction k as [|k IH]; [reflexivity|]. cbn [spaces no_char].
  rewrite IH, andb_true_r. destruct (Ascii.eqb_spec " " c); [subst; discriminate | reflexivity].
Qed.

(** Neither the colon nor the newline occurs after the label. *)
Lemma no_char_me_tail (c : ascii) (e : mem_entry) :
  is_digit c = false -> Ascii.eqb c " " = false -> no_char c " kB" = true ->
  no_char c (me_tail e) = true.
Proof.
  intros Hd Hs Hu. unfold me_tail. rewrite !no_char_app, no_char_spaces, no_char_show_nat by assumption.
  now destruct (me_unit e).
Qed.

Lemma split_me_line (e : mem_entry) :
  label_ok (me_label e) = true -> split ":"%char (me_line e) = [me_label e; me_tail e].
Proof.
  unfold label_ok. intros [[_ Hc]%andb_prop _]%andb_prop. unfold me_line.
  rewrite split_app_sep, split_no_char by (assumption || now apply no_char_me_tail). reflexivity.
Qed.

Lemma label_of_me_line (e : mem_entry) :
  label_ok (me_label e) = true -> label_of (me_line e) = me_label e.
Proof. intros H. unfold label_of. now rewrite split_me_line. Qed.

Lemma trim_start_spaces (k : nat) (s : string) : trim_start (append (spaces k) s) = trim_start s.
Proof. induction k as [|k IH]; [reflexivity | exact IH]. Qed.

Lemma value_of_me_line (e : mem_entry) :
  label_ok (me_label e) = true -> value_of (me_line e) = of_nat (me_kB e).
Proof.
  intros H. unfold value_of. rewrite split_me_line by exact H. cbn [nth_error js_str].
  unfold me_tail, parseInt. rewrite trim_start_spaces. fold (parseInt (append (show_nat (me_kB e)) (me_unit_text (me_unit e)))).
  apply parseInt_show_nat_app. now destruct (me_unit e).
Qed.

Lemma ends_nonws_cons (c : ascii) (s : string) :
  s <> EmptyString -> ends_nonws (String c s) = ends_nonws s.
Proof. destruct s; [contradiction | reflexivity]. Qed.

Lemma ends_nonws_me_line (e : mem_entry) : ends_nonws (me_line e) = true.
Proof.
  destruct (show_nat_cons (me_kB e)) as (c & s & Hs & _).
  unfold me_line, me_tail. rewrite ends_nonws_app by discriminate.
  rewrite ends_nonws_cons by (rewrite Hs; now destruct (spaces _)).
  rewrite ends_nonws_app by (rewrite Hs; discriminate).
  destruct (me_unit e); cbn [me_unit_text].
  - rewrite ends_nonws_app by discriminate. reflexivity.
  - rewrite append_nil_r. apply field_ok_ends, field_ok_show_nat.
Qed.

Lemma me_line_nonempty (e : mem_entry) : me_line e <> EmptyString.
Proof. unfold me_line. destruct (me_label e); discriminate. Qed.

Lemma no_char_me_line (e : mem_entry) :
  label_ok (me_label e) = true -> no_char nl (me_line e) = true.
Proof.
  unfold label_ok. intros [_ Hn]%andb_prop. unfold me_line.
  rewrite no_char_app, Hn. cbn [no_char andb negb]. cbn -[no_char].
  now apply no_char_me_tail.
Qed.

Lemma ends_nonws_meminfo (l : list mem_entry) :
  l <> [] -> ends_nonws (join nl (map me_line l)) = true.
Proof.
  intros Hne. destruct (exists_last Hne) as (l0 & e & ->). rewrite map_app.
  apply ends_nonws_join_last; [apply me_line_nonempty | apply ends_nonws_me_line].
Qed.

Lemma join_head (sep : ascii) (x : string) (l : list string) :
  exists t, join sep (x :: l) = append x t.
Proof.
  destruct l as [|y l]; [exists EmptyString; symmetry; apply append_nil_r|].
  eexists; reflexivity.
Qed.

(** The trimmed file, split on newlines, is the list of lines. *)
Lemma split_trim_meminfo (l : list mem_entry) :
  l <> [] -> Forall (fun e => label_ok (me_label e) = true) l ->
  split nl (trim (meminfo_text l)) = map me_line l.
Proof.
  intros Hne Hall. destruct l as [|e l']; [contradiction|].
  inversion Hall as [|? ? He _]; subst.
  assert (Hn : no_char nl (me_line e) = true) by now apply no_char_me_line.
  unfold label_ok in He. apply andb_prop in He as [[Hc _]%andb_prop _].
  destruct (me_label e) as [|c s] eqn:El; [discriminate|]. apply negb_true_iff in Hc.
  destruct (join_head nl (me_line e) (map me_line l')) as (t & Ht).
  assert (Hj : join nl (map me_line (e :: l')) = String c (append (append s (String ":" (me_tail e))) t)).
  { cbn [map]. rewrite Ht. unfold me_line. now rewrite El. }
  unfold meminfo_text, line_nl. rewrite Hj, trim_line, <- Hj.
  - apply split_join; [destruct l'; discriminate|].
    apply Forall_map. eapply Forall_impl; [|exact Hall]. intros x Hx. now apply no_char_me_line.
  - exact Hc.
  - rewrite <- Hj. apply ends_nonws_meminfo. discriminate.
Qed.

(** [find] over the lines of a file reads each entry's label. *)
Lemma find_me_line (P : string -> bool) (l : list mem_entry) :
  Forall (fun e => label_ok (me_label e) = true) l ->
  find (fun line => P (label_of line)) (map me_line l) =
  option_map me_line (find (fun e => P (me_label e)) l).
Proof.
  induction 1 as [|e l He _ IH]; [reflexivity|]. cbn [map find].
  rewrite label_of_me_line by exact He. now destruct (P (me_label e)).
Qed.

Lemma filter_me_line (P : string -> bool) (l : list mem_entry) :
  Forall (fun e => label_ok (me_label e) = true) l ->
  filter (fun e => P (label_of (me_line e))) l = filter (fun e => P (me_label e)) l.
Proof.
  intros Hall. apply filter_ext_in. intros e He.
  rewrite label_of_me_line; [reflexivity|]. now apply (proj1 (Forall_forall _ l) Hall).
Qed.

Lemma times_1024 (n : nat) : (of_nat n * of_Z 1024)%num = of_Z (Z.of_nat n * 1024).
Proof.
  rewrite of_nat_fin, !of_Z_fin, mul_fin. apply fin_proper. now rewrite inject_Z_mult.
Qed.

(** The lines the spec (section 4.5) counts as available memory. *)
Definition available_label (l : string) : bool :=
  String.eqb l "MemFree" || String.eqb l "Buffers" || String.eqb l "Cached".

Lemma free_label_available (l : string) : free_label l = available_label l.
Proof. unfold free_label, available_label. cbn [existsb]. now rewrite orb_false_r, orb_assoc. Qed.

(** ** Memory theorems *)

(** C22: on a [/proc/meminfo] of well-formed lines, [getMemoryUsage]
    returns 1024 times the sum of the values of the lines labelled
    [MemFree], [Buffers] and [Cached]. *)
Theorem getMemoryUsage_meminfo (w : world) (l : list mem_entry) :
  l <> [] -> Forall (fun e => label_ok (me_label e) = true) l ->
  readFileSync w "/proc/meminfo" = Ok (meminfo_text l) ->
  getMemoryUsage w =
  Ok (of_Z (Z.of_nat (list_sum (map me_kB (filter (fun e => available_label (me_label e)) l))) * 1024)).
Proof.
  intros Hne Hall Hr. unfold getMemoryUsage. rewrite Hr. cbn [res_bind].
  rewrite split_trim_meminfo by assumption. rewrite fold_left_map_fn, of_Z_0_of_nat.
  rewrite (fold_add_if (fun e => free_label (label_of (me_line e))) (fun e => value_of (me_line e)) me_kB).
  - rewrite filter_me_line, times_1024 by exact Hall.
    rewrite (filter_ext _ _ (fun e => free_label_available (me_label e))). reflexivity.
  - intros e He _. apply value_of_me_line. now apply (proj1 (Forall_forall _ l) Hall).
Qed.

(** C23: on a [/proc/meminfo] of well-formed lines, [getTotalMemory]
    returns 1024 times the value of the first [MemTotal] line, and
    [os.totalmem()] when there is none. *)
Theorem getTotalMemory_meminfo (w : world) (l : list mem_entry) :
  l <> [] -> Forall (fun e => label_ok (me_label e) = true) l ->
  readFileSync w "/proc/meminfo" = Ok (meminfo_text l) ->
  getTotalMemory w =
  Ok (match find (fun e => String.eqb (me_label e) "MemTotal") l with
      | Some e => of_Z (Z.of_nat (me_kB e) * 1024)
      | None => os_totalmem w
      end).
Proof.
  intros Hne Hall Hr. unfold getTotalMemory. rewrite Hr. cbn [res_bind].
  rewrite split_trim_meminfo, (find_me_line (fun s => String.eqb s "MemTotal")) by assumption.
  destruct (find _ l) as [e|] eqn:Hf; [|reflexivity]. cbn [option_map]. f_equal.
  rewrite value_of_me_line; [apply times_1024|].
  apply find_some in Hf as [Hin _]. now apply (proj1 (Forall_forall _ l) Hall).
Qed.

(** ** Concrete files *)

Definition loadavg_world (text : string) : world :=
  set_file "/proc/loadavg" text (bare_world "Linux" [] 0).

Definition spec_meminfo : list mem_entry :=
  [ {| me_label := "MemTotal"; me_pad := 7; me_kB := 16384; me_unit := true |};
    {| me_label := "MemFree"; me_pad := 9; me_kB := 100; me_unit := true |};
    {| me_label := "MemAvailable"; me_pad := 4; me_kB := 900; me_unit := true |};
    {| me_label := "Buffers"; me_pad := 9; me_kB := 50; me_unit := true |};
    {| me_label := "Cached"; me_pad := 10; me_kB := 200; me_unit := true |};
    {| me_label := "SwapCached"; me_pad := 6; me_kB := 10; me_unit := true |};
    {| me_label := "HugePages_Total"; me_pad := 1; me_kB := 0; me_unit := false |} ].

Definition meminfo_world : world :=
  set_file "/proc/meminfo" (meminfo_text spec_meminfo) (bare_world "Linux" [] 0).

Lemma getLoadAvg_kernel_witness :
  getLoadAvg (loadavg_world (line_nl "0.10 0.20 0.30 1/200 1234")) =
  Ok (fin (1 # 10), fin (1 # 5), fin (3 # 10)).
Proof.
  rewrite (getLoadAvg_kernel _ 0 10 0 20 0 30 (line_nl "1/200 1234")) by
    (lia || (vm_compute; reflexivity)).
  vm_compute. reflexivity.
Defined.

Lemma getLoadAvg_high_load_witness :
  getLoadAvg (loadavg_world (line_nl "12.50 3.00 4.25 1/200 1234")) =
  Ok (fin (5 # 2), fin 3, fin (17 # 4)) /\ (load_value 2 50 < load_value 12 50)%Q.
Proof.
  pose proof (getLoadAvg_high_load (loadavg_world (line_nl "12.50 3.00 4.25 1/200 1234"))
                12 50 3 0 4 25 (line_nl "1/200 1234") ltac:(lia) ltac:(lia) ltac:(lia)
                ltac:(lia) ltac:(lia) ltac:(lia) ltac:(vm_compute; reflexivity)) as [H Hlt].
  split; [rewrite H; vm_compute; reflexivity | exact Hlt].
Defined.

Lemma getLoadAvg_no_digit_witness :
  getLoadAvg (loadavg_world (line_nl "n/a")) = Ok (of_Z 0, of_Z 0, of_Z 0).
Proof.
  rewrite (getLoadAvg_no_digit _ (line_nl "n/a")) by (vm_compute; reflexivity).
  reflexivity.
Defined.

Lemma getMemoryUsage_meminfo_witness : getMemoryUsage meminfo_world = Ok (of_Z 358400).
Proof.
  rewrite (getMemoryUsage_meminfo meminfo_world spec_meminfo) by
    (discriminate || (repeat constructor) || (vm_compute; reflexivity)).
  vm_compute. reflexivity.
Defined.

Lemma getTotalMemory_meminfo_witness : getTotalMemory meminfo_world = Ok (of_Z 16777216).
Proof.
  rewrite (getTotalMemory_meminfo meminfo_world spec_meminfo) by
    (discriminate || (repeat constructor) || (vm_compute; reflexivity)).
  vm_compute. reflexivity.
Defined.
