(* ===== verification/Snapshot.v ===== *)
(** * The snapshot assembler: [status] and [exports.run] (system.js,
    lines 244-264)

    [status] reads the load averages first (the [const loadavg] of line
    246), then evaluates the object literal's properties in source order:
    [os.uptime()], the total and free memory, the three loads, the CPU
    fraction from [getSystemCPU] and the CPU count.  On Linux the figures
    come from the readers of [Readers.v]; elsewhere from [os].  The only
    state is the CPU estimator's; an exception of a reader escapes [status]
    before [getSystemCPU] runs and leaves that state as it was.

    [exports.run] calls its callback once, with [null] and the report.  The
    callback is the caller's code: [run] is modelled as the computation of
    the arguments it passes, so [Ok] means the callback is called with
    them and [Throw] that [run] throws before calling it. *)

From Stdlib Require Import String Ascii List ZArith QArith Lqa Lia.
From S2P Require Import Prelude JsNum JsString Host Docker Quota Procs Cpu Readers.
Import ListNotations.
Open Scope string_scope.

Record metrics := {
  uptime : num;
  totalmem : num;
  freemem : num;
  load1 : num;
  load5 : num;
  load15 : num;
  cpu : num;
  cpu_count : num
}.

(** [{type: 'system', metrics: status()}] *)
Record report := { type_ : string; metrics_ : metrics }.

(** The arguments of [callback(null, {...})]. *)
Record callback_args := { cb_error : option exn; cb_result : report }.

Definition status (w : world) : M cpu_state metrics :=
  (let is_linux := is_linux w in
   loadavg <- lift (if is_linux then getLoadAvg w else Ok (os_loadavg w)) ;;
   let uptime := os_uptime w in
   totalmem <- lift (if is_linux then getTotalMemory w else Ok (os_totalmem w)) ;;
   freemem <- lift (if is_linux then getMemoryUsage w else Ok (os_freemem w)) ;;
   let '(l1, l5, l15) := loadavg in
   cpu <- getSystemCPU w ;;
   ret {| uptime := uptime; totalmem := totalmem; freemem := freemem;
          load1 := l1; load5 := l5; load15 := l15; cpu := cpu;
          cpu_count := of_nat (length (os_cpus w)) |})%js.

Definition run (w : world) : M cpu_state callback_args :=
  (m <- status w ;;
   ret {| cb_error := None; cb_result := {| type_ := "system"; metrics_ := m |} |})%js.

(** ** The report of one call *)

(** What [run] passes to its callback, from the readers' figures and the
    CPU fraction. *)
Definition report_of (w : world) (la : num * num * num) (tm fm c : num) : callback_args :=
  {| cb_error := None;
     cb_result :=
       {| type_ := "system";
          metrics_ := {| uptime := os_uptime w; totalmem := tm; freemem := fm;
                         load1 := fst (fst la); load5 := snd (fst la); load15 := snd la;
                         cpu := c; cpu_count := of_nat (length (os_cpus w)) |} |} |}.

(** The readers of [status] on [w]: the load averages, the total and the
    free memory. *)
Definition read_loadavg (w : world) : res (num * num * num) :=
  if is_linux w then getLoadAvg w else Ok (os_loadavg w).

Definition read_totalmem (w : world) : res num :=
  if is_linux w then getTotalMemory w else Ok (os_totalmem w).

Definition read_freemem (w : world) : res num :=
  if is_linux w then getMemoryUsage w else Ok (os_freemem w).

(** The readers all return. *)
Definition readers_ok (w : world) : bool :=
  is_ok (read_loadavg w) && is_ok (read_totalmem w) && is_ok (read_freemem w).

Lemma run_readers (w : world) (la : num * num * num) (tm fm : num) (s : cpu_state) :
  read_loadavg w = Ok la -> read_totalmem w = Ok tm -> read_freemem w = Ok fm ->
  run w s = (res_map (report_of w la tm fm) (fst (getSystemCPU w s)), snd (getSystemCPU w s)).
Proof.
  unfold read_loadavg, read_totalmem, read_freemem. intros Hl Ht Hf.
  unfold run, status. rewrite Hl, Ht, Hf. unfold bind, lift, ret. cbn -[getSystemCPU].
  destruct la as [[l1 l5] l15]. cbn -[getSystemCPU].
  destruct (getSystemCPU w s) as [[c|e] s']; reflexivity.
Qed.

Lemma run_cpu (w : world) (s s' : cpu_state) (c : num) :
  readers_ok w = true -> getSystemCPU w s = (Ok c, s') ->
  exists a, run w s = (Ok a, s') /\ cpu (metrics_ (cb_result a)) = c.
Proof.
  unfold readers_ok. intros [[Hl Ht]%andb_prop Hf]%andb_prop Hc.
  destruct (is_ok_inv _ Hl) as (la & Hla), (is_ok_inv _ Ht) as (tm & Htm),
    (is_ok_inv _ Hf) as (fm & Hfm).
  rewrite (run_readers w la tm fm s Hla Htm Hfm), Hc. eexists; split; reflexivity.
Qed.

Lemma run_getSystemCPU (w : world) (s s' : cpu_state) (c : num) :
  readers_ok w = true -> getSystemCPU w s = (Ok c, s') ->
  exists la tm fm, run w s = (Ok (report_of w la tm fm c), s') /\
    read_loadavg w = Ok la /\ read_totalmem w = Ok tm /\ read_freemem w = Ok fm.
Proof.
  unfold readers_ok. intros [[Hl Ht]%andb_prop Hf]%andb_prop Hc.
  destruct (is_ok_inv _ Hl) as (la & Hla), (is_ok_inv _ Ht) as (tm & Htm),
    (is_ok_inv _ Hf) as (fm & Hfm).
  exists la, tm, fm. rewrite (run_readers w la tm fm s Hla Htm Hfm), Hc. auto.
Qed.

(** The environments of the end-to-end property: a host whose two
    readings have different totals, or a container whose two calls see
    the process ticks, different clock readings and, on the second call, a
    finite non-zero CPU share. *)
Definition advancing (w1 w2 : world) : Prop :=
  (exists t1 i1 t2 i2, host_reads w1 t1 i1 /\ host_reads w2 t2 i2 /\ t1 <> t2) \/
  (isInDocker w1 = true /\ isInDocker w2 = true /\
   exists u1 u2 sh1 q,
     getAllCPU w1 = Ok (of_nat u1) /\ getAllCPU w2 = Ok (of_nat u2) /\
     _getDockerCPUs w1 = Ok sh1 /\ _getDockerCPUs w2 = Ok (fin q) /\ ~ (q == 0)%Q /\
     now_ms w1 <> now_ms w2).

(** ** Snapshot theorems *)

(** C24: on a Linux host outside docker whose readers return, [run]
    passes to its callback the readers' figures and the CPU fraction
    [1 - (idle - lastIdle) / (total - lastTotal)] of the [/proc/stat]
    line, and stores the new sample.  [bd_total] is the code's total, with
    steal counted once; the comment of system.js lines 14-16 counts it
    twice, and [Cpu.getSystemCPU_steal_comment] states when that changes
    the reported fraction. *)
Theorem run_linux_host (w : world) (s : cpu_state) (b : breakdown)
    (la : num * num * num) (tm fm : num) :
  is_linux w = true -> isInDocker w = false -> linux_stat w b ->
  getLoadAvg w = Ok la -> getTotalMemory w = Ok tm -> getMemoryUsage w = Ok fm ->
  run w s =
  (Ok (report_of w la tm fm (delta_out (lastTotal s) (lastIdle s) (bd_total b) (bd_idle b))),
   set_host_sample (of_nat (bd_total b)) (of_nat (bd_idle b)) s).
Proof.
  intros Hl Hd Hb Hla Htm Hfm.
  rewrite (run_readers w la tm fm s); unfold read_loadavg, read_totalmem, read_freemem;
    rewrite ?Hl; try assumption.
  rewrite (getSystemCPU_law w (bd_total b) (bd_idle b)); [reflexivity|].
  split; [exact Hd|]. left. eauto.
Qed.

(** C25: on a host that is neither Linux nor a container, [run] never
    throws: its callback gets the [os] figures and the CPU fraction of the
    [os.cpus()] sums. *)
Theorem run_generic (w : world) (s : cpu_state) :
  is_linux w = false -> isInDocker w = false ->
  run w s =
  (Ok (report_of w (os_loadavg w) (os_totalmem w) (os_freemem w)
         (delta_out (lastTotal s) (lastIdle s) (cpus_total (os_cpus w)) (cpus_idle (os_cpus w)))),
   set_host_sample (of_nat (cpus_total (os_cpus w))) (of_nat (cpus_idle (os_cpus w))) s).
Proof.
  intros Hl Hd.
  rewrite (run_readers w (os_loadavg w) (os_totalmem w) (os_freemem w) s);
    unfold read_loadavg, read_totalmem, read_freemem; rewrite ?Hl; try reflexivity.
  rewrite (getSystemCPU_law w (cpus_total (os_cpus w)) (cpus_idle (os_cpus w))); [reflexivity|].
  split; [exact Hd|]. right. auto.
Qed.

(** C26: on Linux, a missing [/proc/meminfo] makes [run] throw [ENOENT]
    before it calls its callback, and before [getSystemCPU] takes its
    sample: the state is unchanged. *)
Theorem run_meminfo_missing (w : world) (s : cpu_state) (la : num * num * num) :
  is_linux w = true -> getLoadAvg w = Ok la ->
  existsSync w "/proc/meminfo" = false ->
  run w s = (Throw (ENOENT "/proc/meminfo"), s).
Proof.
  intros Hl Hla He. unfold run, status. rewrite Hl, Hla.
  unfold getTotalMemory. rewrite readFileSync_not_exists by exact He. reflexivity.
Qed.

(** C27: two calls of [run] in succession, from any state, on an
    advancing host or container whose readers return, both call back, and
    the second call's [cpu] is a finite number. *)
Theorem run_twice_finite (w1 w2 : world) (s0 : cpu_state) :
  readers_ok w1 = true -> readers_ok w2 = true -> advancing w1 w2 ->
  exists a1 s1 a2 s2,
    run w1 s0 = (Ok a1, s1) /\ run w2 s1 = (Ok a2, s2) /\
    is_finite (cpu (metrics_ (cb_result a2))) = true.
Proof.
  intros H1 H2 [(t1 & i1 & t2 & i2 & Hr1 & Hr2 & Ht) | (Hd1 & Hd2 & u1 & u2 & sh1 & q & Hu1 & Hu2 & Hs1 & Hs2 & Hq & Hn)].
  - destruct (run_getSystemCPU w1 _ _ _ H1 (getSystemCPU_law w1 t1 i1 s0 Hr1)) as (la1 & tm1 & fm1 & E1 & _).
    destruct (run_getSystemCPU w2 _ _ _ H2 (getSystemCPU_law w2 t2 i2 (set_host_sample (of_nat t1) (of_nat i1) s0) Hr2)) as (la2 & tm2 & fm2 & E2 & _).
    do 4 eexists. split; [exact E1|]. split; [exact E2|]. cbn -[delta_out]. now rewrite delta_out_fin.
  - destruct (run_getSystemCPU w1 _ _ _ H1 (getSystemCPU_docker_law w1 s0 _ _ Hd1 Hu1 Hs1)) as (la1 & tm1 & fm1 & E1 & _).
    destruct (run_getSystemCPU w2 _ _ _ H2 (getSystemCPU_docker_law w2 (set_docker_sample (of_nat u1) (of_Z (now_ms w1)) s0) _ _ Hd2 Hu2 Hs2)) as (la2 & tm2 & fm2 & E2 & _).
    do 4 eexists. split; [exact E1|]. split; [exact E2|]. cbn -[docker_out]. now rewrite docker_out_fin.
Qed.

(** ** Concrete hosts *)

(** A Linux host outside docker with [/proc/stat], [/proc/loadavg] and
    [/proc/meminfo]. *)
Definition full_linux (line : string) (now : Z) : world :=
  set_file "/proc/loadavg" (line_nl "0.10 0.20 0.30 1/200 1234")
  (set_file "/proc/meminfo" (meminfo_text spec_meminfo) (linux_world line now)).

Lemma full_linux_stat (line : string) (now : Z) (l : list nat) :
  stat_line_of (stat_text line) = Some (cpu_line (bd_of l)) ->
  linux_stat (full_linux line now) (bd_of l).
Proof. intros H. exists (stat_text line). split; [reflexivity | exact H]. Qed.

Lemma full_linux_reads (line : string) (now : Z) (l : list nat) (t i : nat) :
  isInDocker (full_linux line now) = false ->
  stat_line_of (stat_text line) = Some (cpu_line (bd_of l)) ->
  bd_total (bd_of l) = t -> bd_idle (bd_of l) = i ->
  host_reads (full_linux line now) t i.
Proof.
  intros Hd Hl <- <-. split; [exact Hd|]. left. split; [reflexivity|].
  exists (bd_of l). split; [now apply full_linux_stat | split; reflexivity].
Qed.

(** A host that is neither Linux nor a container, with two CPUs. *)
Definition darwin_world : world :=
  bare_world "Darwin"
    [ {| user := 500; nice := 0; sys := 200; idle := 300; irq := 0 |};
      {| user := 100; nice := 0; sys := 100; idle := 800; irq := 0 |} ] 0.

Lemma run_linux_host_witness :
  run (full_linux stat_a 5) zero_state =
  (Ok (report_of (full_linux stat_a 5) (fin (1 # 10), fin (1 # 5), fin (3 # 10))
         (of_Z 16777216) (of_Z 358400) (delta_out (of_Z 0) (of_Z 0) 1000 600)),
   set_host_sample (of_nat 1000) (of_nat 600) zero_state).
Proof.
  rewrite (run_linux_host (full_linux stat_a 5) zero_state (bd_of [300; 0; 100; 500; 50; 0; 0; 50; 0; 0])
             (fin (1 # 10), fin (1 # 5), fin (3 # 10)) (of_Z 16777216) (of_Z 358400));
    [reflexivity | reflexivity | vm_compute; reflexivity | apply full_linux_stat; vm_compute; reflexivity
    | vm_compute; reflexivity | vm_compute; reflexivity | vm_compute; reflexivity].
Defined.

Lemma run_generic_witness :
  run darwin_world zero_state =
  (Ok (report_of darwin_world (of_Z 0, of_Z 0, of_Z 0) (of_Z 0) (of_Z 0)
         (delta_out (of_Z 0) (of_Z 0) 2000 1100)),
   set_host_sample (of_nat 2000) (of_nat 1100) zero_state).
Proof. rewrite run_generic by (vm_compute; reflexivity). reflexivity. Defined.

Lemma run_meminfo_missing_witness :
  run (set_file "/proc/loadavg" (line_nl "0.10 0.20 0.30 1/200 1234") (linux_world stat_a 5)) zero_state =
  (Throw (ENOENT "/proc/meminfo"), zero_state).
Proof.
  apply (run_meminfo_missing _ _ (fin (1 # 10), fin (1 # 5), fin (3 # 10)));
    vm_compute; reflexivity.
Defined.

Lemma run_twice_finite_witness :
  exists a1 s1 a2 s2,
    run (full_linux stat_a 5) zero_state = (Ok a1, s1) /\
    run (full_linux stat_b 9) s1 = (Ok a2, s2) /\
    is_finite (cpu (metrics_ (cb_result a2))) = true.
Proof.
  apply run_twice_finite; [vm_compute; reflexivity | vm_compute; reflexivity |].
  left. exists 1000, 600, 2000, 1600. split; [|split; [|lia]].
  - apply (full_linux_reads _ _ [300; 0; 100; 500; 50; 0; 0; 50; 0; 0]); vm_compute; reflexivity.
  - apply (full_linux_reads _ _ [300; 0; 100; 1400; 100; 0; 0; 100; 0; 0]); vm_compute; reflexivity.
Defined.
